(** * AI-file-renamer: the classification, preview and filename pipeline

    A shallow embedding of [main.py].  Python strings are lists of
    characters; a character is a code point below 256 (the [ascii] type read
    as Latin-1), for which [str.lower], [str.isspace] and the regular
    expression of [clean_filename] are modelled exactly.  Paths follow
    [posixpath] and [pathlib.PurePosixPath] (Python 3.8 to 3.13).  The parent
    directory of the target is a finite map from entry names to entries.
    The orchestrator is given twice: as the run in which the operating
    system refuses nothing, and, in module [OS], as a computation that can
    raise at each call the source makes. *)

From Stdlib Require Import ZArith Ascii String List Bool Lia.
From stdpp Require Import base option list gmap.
Import ListNotations.

Local Open Scope Z_scope.
Local Open Scope list_scope.

(** ** Python strings *)

Abbreviation str := (list ascii).

Definition py (s : string) : str := list_ascii_of_string s.

Module Py.

Definition ord (c : ascii) : Z := Z.of_N (N_of_ascii c).

Definition chr (n : Z) : ascii := ascii_of_N (Z.to_N n).

(** [str.isspace] on one character: the code points below 256 that
    CPython's [Py_UNICODE_ISSPACE] accepts. *)
Definition isspace (c : ascii) : bool :=
  let n := ord c in
  ((9 <=? n) && (n <=? 13)) || ((28 <=? n) && (n <=? 32))
  || (n =? 133) || (n =? 160).

(** [str.lower] on one character: A-Z and the Latin-1 capitals
    (U+00C0 to U+00DE, except the multiplication sign) move up by 32. *)
Definition lower_char (c : ascii) : ascii :=
  let n := ord c in
  if ((65 <=? n) && (n <=? 90))
     || ((192 <=? n) && (n <=? 222) && negb (n =? 215))
  then chr (n + 32) else c.

Definition lower (s : str) : str := map lower_char s.

Definition eqb (a b : str) : bool := bool_decide (a = b).

(** [s.startswith(p)] *)
Fixpoint startswith (s p : str) : bool :=
  match p, s with
  | [], _ => true
  | _ :: _, [] => false
  | a :: p', b :: s' => Ascii.eqb a b && startswith s' p'
  end.

(** [s.startswith((p1, p2, ...))] *)
Definition startswith_any (s : str) (ps : list str) : bool :=
  existsb (startswith s) ps.

(** [s.endswith(x)]: the last [len(x)] characters of [s] are [x]. *)
Definition endswith (s x : str) : bool :=
  (length x <=? length s)%nat
  && eqb (drop (length s - length x)%nat s) x.

(** [x in l] for a list of strings *)
Definition contains (l : list str) (x : str) : bool :=
  existsb (eqb x) l.

(** [s.rstrip(chars)] with [chars] given as a predicate: scanning from
    the right, characters are dropped while they are in the set. *)
Fixpoint rstrip (P : ascii -> bool) (s : str) : str :=
  match s with
  | [] => []
  | c :: s' =>
      match rstrip P s' with
      | [] => if P c then [] else [c]
      | r => c :: r
      end
  end.

Fixpoint lstrip (P : ascii -> bool) (s : str) : str :=
  match s with
  | [] => []
  | c :: s' => if P c then lstrip P s' else s
  end.

(** [s.strip()] *)
Definition strip (s : str) : str := rstrip isspace (lstrip isspace s).

(** [s.split()]: the maximal runs of non-whitespace characters.  The
    scanner keeps the word being read, reversed, in [cur]. *)
Fixpoint split_from (cur : str) (s : str) : list str :=
  match s with
  | [] => match cur with [] => [] | _ => [rev cur] end
  | c :: s' =>
      if isspace c
      then match cur with
           | [] => split_from [] s'
           | _ => rev cur :: split_from [] s'
           end
      else split_from (c :: cur) s'
  end.

Definition split (s : str) : list str := split_from [] s.

(** [sep.join(l)] *)
Fixpoint join (sep : str) (l : list str) : str :=
  match l with
  | [] => []
  | [w] => w
  | w :: l' => w ++ sep ++ join sep l'
  end.

(** [s.rfind(c)] for a one-character [c]: the index of the last
    occurrence, [-1] when there is none. *)
Fixpoint rfind (c : ascii) (s : str) : Z :=
  match s with
  | [] => -1
  | x :: s' =>
      let r := rfind c s' in
      if 0 <=? r then r + 1
      else if Ascii.eqb x c then 0 else -1
  end.

(** [s[i:j]] for [0 <= i] *)
Definition slice (s : str) (i j : Z) : str :=
  take (Z.to_nat (j - i)) (drop (Z.to_nat i) s).

(** [s.split(sep)] for a one-character separator *)
Fixpoint split_on (sep : ascii) (s : str) : list str :=
  match s with
  | [] => [[]]
  | c :: s' =>
      if Ascii.eqb c sep then [] :: split_on sep s'
      else match split_on sep s' with
           | [] => [[c]]
           | w :: ws => (c :: w) :: ws
           end
  end.

End Py.

(** ** [posixpath] and [pathlib] *)

Module PosixPath.

Definition sep : ascii := "/"%char.
Definition extsep : ascii := "."%char.

(** [os.path.splitext]: the extension starts at the last dot of the last
    component, unless that component has only dots before it. *)
Definition splitext (p : str) : str * str :=
  let sepIndex := Py.rfind sep p in
  let dotIndex := Py.rfind extsep p in
  if (sepIndex <? dotIndex)
     && existsb (fun c => negb (Ascii.eqb c extsep))
          (Py.slice p (sepIndex + 1) dotIndex)
  then (take (Z.to_nat dotIndex) p, drop (Z.to_nat dotIndex) p)
  else (p, []).

(** The components [pathlib] keeps: empty ones and [.] are dropped. *)
Definition parts (p : str) : list str :=
  filter (fun x => x <> [] /\ x <> [extsep]) (Py.split_on sep p).

(** [Path(p).name] *)
Definition name (p : str) : str := List.last (parts p) [].

(** [Path(p).suffix] *)
Definition suffix (p : str) : str :=
  let n := name p in
  let i := Py.rfind extsep n in
  if (0 <? i) && (i <? Z.of_nat (length n) - 1)
  then drop (Z.to_nat i) n else [].

End PosixPath.

(** ** The program *)

Definition max_dimension : Z := 1024.
Definition MAX_FILE_BYTES : Z := 3 * 1024 * 1024.

(** *** Image preview (image_base64_encode) *)

Record image := { mode : str; dimensions : Z * Z }.

Inductive img_format := JPEG | PNG.

(** The arguments of the final [image.save] call, with the image it is
    called on. *)
Record save_call := {
  saved_mode : str;
  saved_size : Z * Z;
  format : img_format;
  quality : option Z;
  optimize : bool
}.

(** Lines 46-55: the size handed to [image.resize], or the original size
    when no resize happens.  [int(a / b)] truncates the quotient; for the
    sizes an image can have (far below 2^43) the float quotient of Python
    truncates to the integer quotient. *)
Definition resized_size (sz : Z * Z) : Z * Z :=
  let '(original_width, original_height) := sz in
  if (max_dimension <? original_width) || (max_dimension <? original_height)
  then
    if original_height <? original_width
    then (max_dimension, Z.quot (original_height * max_dimension) original_width)
    else (Z.quot (original_width * max_dimension) original_height, max_dimension)
  else sz.

(** Lines 58-70: format and mode. *)
Definition save_plan (img : image) : save_call :=
  let sz := resized_size (dimensions img) in
  if Py.eqb (mode img) (py "RGBA")
  then {| saved_mode := mode img; saved_size := sz; format := PNG;
          quality := None; optimize := true |}
  else {| saved_mode := py "RGB"; saved_size := sz; format := JPEG;
          quality := Some 85; optimize := true |}.

(** *** Category (get_file_category) *)

Inductive category :=
  | image_cat | text_cat | pdf_cat | document_cat | spreadsheet_cat
  | presentation_cat | binary_cat.

Definition IMAGE_EXTENSIONS : list str :=
  map py [".jpg"; ".jpeg"; ".png"; ".gif"; ".bmp"; ".tiff"; ".webp"; ".heic"]%string.
Definition TEXT_EXTENSIONS : list str :=
  map py [".txt"; ".md"; ".rst"; ".log"; ".py"; ".js"; ".ts"; ".html"; ".css";
          ".json"; ".xml"; ".yml"; ".yaml"; ".csv"; ".toml"; ".ini"; ".cfg";
          ".sql"]%string.
Definition PDF_EXTENSIONS : list str := map py [".pdf"]%string.
Definition DOCUMENT_EXTENSIONS : list str :=
  map py [".doc"; ".docx"; ".rtf"; ".odt"; ".pages"]%string.
Definition SPREADSHEET_EXTENSIONS : list str :=
  map py [".xls"; ".xlsx"; ".ods"; ".numbers"; ".csv"]%string.
Definition PRESENTATION_EXTENSIONS : list str :=
  map py [".ppt"; ".pptx"; ".odp"; ".key"]%string.

Definition get_file_category (file_path mime : str) : category :=
  let extension := Py.lower (PosixPath.suffix file_path) in
  if Py.contains IMAGE_EXTENSIONS extension
     || Py.startswith mime (py "image/")
  then image_cat
  else if Py.contains TEXT_EXTENSIONS extension
          || Py.startswith_any mime [py "text/"; py "application/json"]
  then text_cat
  else if Py.contains PDF_EXTENSIONS extension
          || Py.eqb mime (py "application/pdf")
  then pdf_cat
  else if Py.contains DOCUMENT_EXTENSIONS extension then document_cat
  else if Py.contains SPREADSHEET_EXTENSIONS extension then spreadsheet_cat
  else if Py.contains PRESENTATION_EXTENSIONS extension then presentation_cat
  else binary_cat.

(** *** Filename normalisation (ensure_extension, clean_filename) *)

Definition renamed_file : str := py "renamed_file".

(** The character class of the regular expression in [clean_filename]. *)
Definition forbidden (c : ascii) : bool :=
  existsb (Ascii.eqb c) (py "<>:" ++ [Py.chr 34] ++ py "/\|?*").

Definition dot_or_space (c : ascii) : bool :=
  Ascii.eqb c "."%char || Ascii.eqb c " "%char.

Definition clean_filename (filename : str) : str :=
  let '(name, ext) := PosixPath.splitext filename in
  let name := List.filter (fun c => negb (forbidden c)) name in
  let name := Py.join (py " ") (Py.split name) in
  let name := Py.rstrip dot_or_space name in
  match name with
  | [] => renamed_file ++ ext
  | _ => name ++ ext
  end.

Definition ensure_extension (base_name ext : str) : str :=
  let bn := Py.strip base_name in
  match bn with
  | [] => renamed_file ++ ext
  | _ =>
      match ext with
      | _ :: _ =>
          if negb (Py.endswith (Py.lower bn) (Py.lower ext))
          then bn ++ ext else bn
      | [] => bn
      end
  end.

(** *** The gateway and the three suggestion functions *)

Inductive content_part :=
  | input_text (text : str)
  | input_image (image_url : str)
  | input_file (filename file_data : str).

(** What [client.responses.create] followed by
    [getattr(response, "output_text", None)] gives: an exception, or the
    attribute. *)
Inductive reply := raised | output_text (content : option str).

(** [x or d] for a string [x] that may be [None] *)
Definition or_else (x : option str) (d : str) : str :=
  match x with
  | Some (c :: m) => c :: m
  | _ => d
  end.

(** What opening and reading the target gives: its bytes, or the text of
    the [OSError] that is raised. *)
Inductive read_result := file_bytes (data : str) | os_error (text : str).

(** The newline translation of a file opened in text mode: [\r\n] and a
    lone [\r] are read as [\n]. *)
Fixpoint universal_newlines (s : str) : str :=
  match s with
  | [] => []
  | c :: s' =>
      if Ascii.eqb c (Py.chr 13)
      then match s' with
           | d :: s'' =>
               if Ascii.eqb d (Py.chr 10)
               then Py.chr 10 :: universal_newlines s''
               else Py.chr 10 :: universal_newlines s'
           | [] => [Py.chr 10]
           end
      else c :: universal_newlines s'
  end.

(** [content[:2000] if len(content) > 2000 else content] *)
Definition first_2000 (content : str) : str :=
  if 2000 <? Z.of_nat (length content) then take 2000 content else content.

(** Line 55: [image.resize] is called when a side exceeds 1024, and it
    raises [ValueError] when a side of the requested size is below 1. *)
Definition resize_raises (sz : Z * Z) : bool :=
  let '(original_width, original_height) := sz in
  ((max_dimension <? original_width) || (max_dimension <? original_height))
  && ((fst (resized_size sz) <? 1) || (snd (resized_size sz) <? 1)).

Definition extension_line (file_extension : str) : str :=
  py "Current extension: " ++ or_else (Some file_extension) (py "[none]").

(** The payloads of lines 140-152, 178-192 and 223-243. *)
Definition image_payload (image_url file_extension : str)
  : list content_part :=
  let prompt :=
    py "Suggest a concise, descriptive base filename for this image. Return only the base filename (no extension). Limit to 100 characters. " in
  [input_text prompt; input_image image_url;
   input_text (extension_line file_extension)].

Definition text_payload (file_content file_extension : str)
  : list content_part :=
  let prompt :=
    py "Analyze the provided text content and propose a concise, descriptive base filename. Return only the base filename (no extension). Limit to 100 characters. " in
  let nl := [Py.chr 10] in
  [input_text prompt;
   input_text (extension_line file_extension ++ nl
               ++ py "File content preview (truncated to 2000 chars):"
               ++ nl ++ file_content)].

Definition category_name (c : category) : str :=
  match c with
  | image_cat => py "image" | text_cat => py "text" | pdf_cat => py "pdf"
  | document_cat => py "document" | spreadsheet_cat => py "spreadsheet"
  | presentation_cat => py "presentation" | binary_cat => py "binary"
  end.

Definition generic_payload (b64 current_filename mime : str) (cat : category)
  : list content_part :=
  let file_extension := PosixPath.suffix current_filename in
  let prompt :=
    py "Suggest a concise, descriptive base filename for the uploaded file. Return only the base filename (no extension). Prefer human-friendly, specific names. Limit to 100 characters. " in
  let nl := [Py.chr 10] in
  [input_file (or_else (Some (PosixPath.name current_filename)) (py "file"))
              (py "data:" ++ mime ++ py ";base64," ++ b64);
   input_text (prompt ++ nl ++ extension_line file_extension ++ nl
               ++ py "Detected category: " ++ category_name cat ++ nl
               ++ py "MIME type: " ++ mime)].

Section Collaborators.

(** [Image.open] on the bytes of a file, and the decoding of its pixels
    that the first use of the image triggers; [None] when either raises. *)
Variable Image_open : str -> option image.
(** The base64 text of the bytes [image.save] writes. *)
Variable save_base64 : save_call -> str.
(** [base64.b64encode(...).decode("utf-8")] *)
Variable b64encode : str -> str.
(** [bytes.decode("utf-8")]; [None] on [UnicodeDecodeError]. *)
Variable decode_utf8 : str -> option str.
(** The remote model. *)
Variable gateway : list content_part -> reply.
(** [mimetypes.guess_type(str(Path(path)))[0]], as line 319 calls it. *)
Variable guess_type : str -> option str.

Definition image_base64_encode (img : image) : str :=
  save_base64 (save_plan img).

(** [read_text_file] opens the file twice at most: as UTF-8, and as
    Latin-1 when decoding fails.  Latin-1 decoding maps each byte to the
    code point of the same value, which is the identity on this model of
    strings. *)
Definition read_text_file (utf8_read latin1_read : read_result) : str :=
  match utf8_read with
  | os_error e => py "[Error reading file: " ++ e ++ py "]"
  | file_bytes data =>
      match decode_utf8 data with
      | Some content => first_2000 (universal_newlines content)
      | None =>
          match latin1_read with
          | file_bytes data' => first_2000 (universal_newlines data')
          | os_error _ =>
              py "[Could not read file content - encoding issue]"
          end
      end
  end.

(** Lines 161-166, shared by the three suggestion functions. *)
Definition suggestion_of_reply (r : reply) (file_extension : str)
  : option str :=
  match r with
  | raised => None
  | output_text None => None
  | output_text (Some content) =>
      match Py.strip content with
      | [] => None
      | base_name => Some (ensure_extension base_name file_extension)
      end
  end.

Definition image_url (img : image) : str :=
  py "data:image/jpeg;base64," ++ image_base64_encode img.

Definition suggest_image_filename (data current_filename : str)
  : option str :=
  match Image_open data with
  | None => None
  | Some img =>
      if resize_raises (dimensions img) then None
      else
        let file_extension := PosixPath.suffix current_filename in
        let payload := image_payload (image_url img) file_extension in
        suggestion_of_reply (gateway payload) file_extension
  end.

(** Lines 171-206 of [suggest_text_filename], for the content that line
    170 has read. *)
Definition text_suggestion (file_content current_filename : str)
  : option str :=
  let file_extension := PosixPath.suffix current_filename in
  let payload := text_payload file_content file_extension in
  suggestion_of_reply (gateway payload) file_extension.

(** The file of the directory opens and is read both times. *)
Definition suggest_text_filename (data current_filename : str)
  : option str :=
  text_suggestion (read_text_file (file_bytes data) (file_bytes data))
    current_filename.

Definition suggest_generic_filename
  (data current_filename mime : str) (cat : category) : option str :=
  let file_extension := PosixPath.suffix current_filename in
  let b64 := b64encode data in
  let payload := generic_payload b64 current_filename mime cat in
  suggestion_of_reply (gateway payload) file_extension.

Definition suggest_filename
  (data current_filename mime : str) (cat : category) : option str :=
  match cat with
  | image_cat => suggest_image_filename data current_filename
  | text_cat => suggest_text_filename data current_filename
  | _ => suggest_generic_filename data current_filename mime cat
  end.

(** *** The orchestrator (rename_single_file) *)

Inductive entry := regular_file (data : str) | subdirectory.

(** Standard input, as [get_user_confirmation] sees it. *)
Inductive stdin := not_a_tty | answers (line : str) | interrupts.

(** The lines the program prints, by the statement that prints them. *)
Inductive message :=
  | not_a_file (file_path : str)
  | file_too_large (name : str)
  | suggested_filename (name : str)
  | target_exists (name : str)
  | successfully_renamed (name : str)
  | keeping_original (name : str)
  | error_processing (name : str).

Record outcome := {
  returned : bool;
  printed : list message;
  entries : gmap str entry
}.

Definition get_user_confirmation (input : stdin) (suggested_name : str)
  : bool * list message :=
  match input with
  | not_a_tty => (true, [])
  | answers response =>
      (Py.eqb (Py.strip response) [], [suggested_filename suggested_name])
  | interrupts => (false, [suggested_filename suggested_name])
  end.

(** The destination of line 330, for a reconciled name that passes the
    test of line 327; [None] when that test fails. *)
Definition destination (file_name new_filename : str) : option str :=
  match new_filename with
  | [] => None
  | _ => if Py.eqb new_filename file_name then None
         else Some (clean_filename new_filename)
  end.

(** [dir] holds the entries of the parent directory of [file_path], by
    name: [file_path] is the entry [Path(file_path).name], and
    [os.path.join(folder_path, n)] is the entry [n] (the cleaned name has
    no separator).  This is the run in which every call of the operating
    system succeeds: the file opens, standard output accepts every line,
    standard input is not at its end, [os.rename] to a free name is
    accepted, and the directory has no link that cannot be followed.  The
    run with those failures is [OS.rename_single_file] below. *)
Definition rename_single_file
  (dir : gmap str entry) (input : stdin) (file_path : str) : outcome :=
  let file_name := PosixPath.name file_path in
  match dir !! file_name with
  | Some (regular_file data) =>
      if MAX_FILE_BYTES <? Z.of_nat (length data)
      then {| returned := false; printed := [file_too_large file_name];
              entries := dir |}
      else
        let mime :=
          or_else (guess_type file_path) (py "application/octet-stream") in
        let cat := get_file_category file_path mime in
        match suggest_filename data file_name mime cat with
        | None => {| returned := false;
                     printed := [error_processing file_name];
                     entries := dir |}
        | Some new_filename =>
            match destination file_name new_filename with
            | Some new_filename =>
                if bool_decide (is_Some (dir !! new_filename))
                then {| returned := false;
                        printed := [target_exists new_filename];
                        entries := dir |}
                else
                  let '(accepted, asked) :=
                    get_user_confirmation input new_filename in
                  if accepted
                  then {| returned := true;
                          printed := asked ++ [successfully_renamed new_filename];
                          entries := <[new_filename := regular_file data]>
                                       (delete file_name dir) |}
                  else {| returned := true; printed := asked;
                          entries := dir |}
            | None => {| returned := true;
                         printed := [keeping_original file_name];
                         entries := dir |}
            end
        end
  | _ => {| returned := false; printed := [not_a_file file_path];
            entries := dir |}
  end.

End Collaborators.

(** ** The run with the refusals of the operating system

    [rename_single_file] above is the run in which every call of the
    operating system succeeds.  Module [OS] follows the same lines of the
    source with the failures they can meet: a file that does not open, a
    resize that raises, a standard output that rejects a line, a standard
    input at its end, an [os.rename] that is refused; and with entries
    that [os.path.exists] does not see.  Every exception of lines 323-346
    is caught at line 347.  Names are compared exactly, as on a
    case-sensitive file system; standard error, which replaces what it
    cannot encode, accepts every line. *)

Module OS.

(** An entry of the directory as [os.stat] sees it: something it reaches,
    or a symbolic link it cannot follow. *)
Inductive node := present (e : entry) | dangling_link.

(** Standard input with its end: [input] raises [EOFError] there. *)
Inductive keyboard := typed (input : stdin) | input_fails.

(** What is written to the two output streams: the messages of the
    orchestrator, the notice of line 56 and the debug lines of lines 163,
    203 and 254. *)
Inductive line :=
  | said (m : message)
  | image_resized (original resized : Z * Z)
  | empty_model_output (kind : str).

Record world := {
  shown : list line;
  folder : gmap str node
}.

Inductive result (A : Type) := value (a : A) | exception.
Arguments value {A} a.
Arguments exception {A}.

(** A computation reads and changes the world, and returns or raises. *)
Definition run (A : Type) : Type := world -> result A * world.

#[global] Instance run_ret : MRet run := fun A a w => (value a, w).

#[global] Instance run_bind : MBind run := fun A B k m w =>
  match m w with
  | (value a, w') => k a w'
  | (exception, w') => (exception, w')
  end.

Definition raise {A : Type} : run A := fun w => (exception, w).

(** [try: body / except Exception: handler] *)
Definition try_except {A : Type} (body handler : run A) : run A := fun w =>
  match body w with
  | (value a, w') => (value a, w')
  | (exception, w') => handler w'
  end.

Definition write (l : line) (w : world) : world :=
  {| shown := shown w ++ [l]; folder := folder w |}.

(** [print(..., file=sys.stderr)] *)
Definition print_stderr (l : line) : run unit := fun w => (value (), write l w).

(** [Path.is_file], with the bytes of the file for the calls that read
    it. *)
Definition is_file (name : str) : run (option str) := fun w =>
  (value (match folder w !! name with
          | Some (present (regular_file data)) => Some data
          | _ => None
          end), w).

(** [os.path.exists]: [False] for a link that cannot be followed. *)
Definition os_path_exists (name : str) : run bool := fun w =>
  (value (match folder w !! name with
          | Some (present _) => true
          | _ => false
          end), w).

(** The messages of the orchestrator among the lines written. *)
Definition messages (lines : list line) : list message :=
  omap (fun l => match l with said m => Some m | _ => None end) lines.

Section OperatingSystem.

Variable Image_open : str -> option image.
Variable save_base64 : save_call -> str.
Variable b64encode : str -> str.
Variable decode_utf8 : str -> option str.
Variable gateway : list content_part -> reply.
Variable guess_type : str -> option str.
(** The text of the [OSError] that opening the path raises, if it does. *)
Variable open_error : str -> option str.
(** Whether [os.rename] of the path to the name raises. *)
Variable rename_error : str -> str -> bool.
(** Whether writing the line to standard output raises. *)
Variable stdout_rejects : line -> bool.

Definition print (l : line) : run unit := fun w =>
  if stdout_rejects l then (exception, w) else (value (), write l w).

(** [os.rename(file_path, new_file_path)]: the entry moves to the new
    name, replacing a link found there. *)
Definition os_rename (file_path file_name new_filename : str) : run unit :=
  fun w =>
    match folder w !! file_name with
    | Some n =>
        if rename_error file_path new_filename then (exception, w)
        else (value (),
              {| shown := shown w;
                 folder := <[new_filename := n]> (delete file_name (folder w)) |})
    | None => (exception, w)
    end.

(** [open(file_path)] and [read()] of a file that holds [data]. *)
Definition open_file (file_path data : str) : read_result :=
  match open_error file_path with
  | Some e => os_error e
  | None => file_bytes data
  end.

Definition image_base64_encode (file_path data : str) : run str :=
  match open_file file_path data with
  | os_error _ => raise
  | file_bytes data =>
      match Image_open data with
      | None => raise
      | Some img =>
          let '(original_width, original_height) := dimensions img in
          (if (max_dimension <? original_width)
              || (max_dimension <? original_height)
           then
             if resize_raises (dimensions img) then raise
             else print (image_resized (dimensions img)
                           (resized_size (dimensions img)))
           else mret ()) ;;
          mret (save_base64 (save_plan img))
      end
  end.

(** Lines 161-166, with the debug line. *)
Definition answer (kind : str) (r : reply) (file_extension : str) : run str :=
  match r with
  | raised => raise
  | output_text None => print (empty_model_output kind) ;; raise
  | output_text (Some content) =>
      match Py.strip content with
      | [] => print (empty_model_output kind) ;; raise
      | base_name => mret (ensure_extension base_name file_extension)
      end
  end.

Definition suggest_image_filename (file_path data current_filename : str)
  : run str :=
  b64_encoded_img ← image_base64_encode file_path data;
  let file_extension := PosixPath.suffix current_filename in
  let payload :=
    image_payload (py "data:image/jpeg;base64," ++ b64_encoded_img)
      file_extension in
  answer (py "image") (gateway payload) file_extension.

(** [read_text_file] catches what opening raises: the model is asked
    about the placeholder. *)
Definition suggest_text_filename (file_path data current_filename : str)
  : run str :=
  let opened := open_file file_path data in
  let file_content := read_text_file decode_utf8 opened opened in
  let file_extension := PosixPath.suffix current_filename in
  let payload := text_payload file_content file_extension in
  answer (py "text") (gateway payload) file_extension.

Definition suggest_generic_filename
  (file_path data current_filename mime : str) (cat : category) : run str :=
  let file_extension := PosixPath.suffix current_filename in
  match open_file file_path data with
  | os_error _ => raise
  | file_bytes data =>
      let b64 := b64encode data in
      let payload := generic_payload b64 current_filename mime cat in
      answer (py "generic file") (gateway payload) file_extension
  end.

Definition suggest_filename
  (file_path data current_filename mime : str) (cat : category) : run str :=
  match cat with
  | image_cat => suggest_image_filename file_path data current_filename
  | text_cat => suggest_text_filename file_path data current_filename
  | _ => suggest_generic_filename file_path data current_filename mime cat
  end.

Definition get_user_confirmation (kb : keyboard) (suggested_name : str)
  : run bool :=
  match kb with
  | typed not_a_tty => mret true
  | typed (answers response) =>
      print (said (suggested_filename suggested_name)) ;;
      mret (Py.eqb (Py.strip response) [])
  | typed interrupts =>
      print (said (suggested_filename suggested_name)) ;; mret false
  | input_fails =>
      print (said (suggested_filename suggested_name)) ;; raise
  end.

Definition rename_single_file (kb : keyboard) (file_path : str) : run bool :=
  let file_name := PosixPath.name file_path in
  target ← is_file file_name;
  match target with
  | None => print_stderr (said (not_a_file file_path)) ;; mret false
  | Some data =>
      if MAX_FILE_BYTES <? Z.of_nat (length data)
      then print_stderr (said (file_too_large file_name)) ;; mret false
      else
        let mime :=
          or_else (guess_type file_path) (py "application/octet-stream") in
        let cat := get_file_category file_path mime in
        try_except
          (new_filename ← suggest_filename file_path data file_name mime cat;
           match destination file_name new_filename with
           | Some new_filename =>
               taken ← os_path_exists new_filename;
               if (taken : bool)
               then print (said (target_exists new_filename)) ;; mret false
               else
                 accepted ← get_user_confirmation kb new_filename;
                 if (accepted : bool)
                 then
                   os_rename file_path file_name new_filename ;;
                   print (said (successfully_renamed new_filename)) ;;
                   mret true
                 else mret true
           | None =>
               print (said (keeping_original file_name)) ;; mret true
           end)
          (print_stderr (said (error_processing file_name)) ;; mret false)
  end.

End OperatingSystem.

End OS.

(** ** Collaborators for the examples *)

(** A gateway that always answers with the same text. *)
Definition answering (text : string) : list content_part -> reply :=
  fun _ => output_text (Some (py text)).

(** A [guess_type] that finds every file to be plain text. *)
Definition plain_text_type : str -> option str :=
  fun _ => Some (py "text/plain").

(** A standard output that cannot encode the check mark of line 340. *)
Definition ascii_stdout : OS.line -> bool :=
  fun l =>
    match l with
    | OS.said (successfully_renamed _) => true
    | _ => false
    end.

(** A standard output that accepts every line. *)
Definition utf8_stdout : OS.line -> bool := fun _ => false.

(** The directory of the examples: a text file, and a link that cannot be
    followed under the name the gateway of the examples leads to. *)
Definition notes_and_link : OS.world :=
  {| OS.shown := [];
     OS.folder :=
       {[ py "notes.txt" := OS.present (regular_file (py "Meeting minutes"));
          py "Q3 Budget Review Minutes.txt" := OS.dangling_link;
          py "todo.md" := OS.present (regular_file (py "later")) ]} |}.

(** The directory without the link. *)
Definition notes_only : OS.world :=
  {| OS.shown := [];
     OS.folder :=
       {[ py "notes.txt"
          := OS.present (regular_file (py "Meeting minutes")) ]} |}.

(** The run of the examples on [notes.txt]: no image, the gateway answers
    [Q3 Budget Review Minutes], every file is plain text and opens, and
    [os.rename] is accepted. *)
Definition example_run (stdout_rejects : OS.line -> bool) (kb : OS.keyboard)
  (w : OS.world) : OS.result bool * OS.world :=
  OS.rename_single_file (fun _ => None) (fun _ => []) id Some
    (answering "Q3 Budget Review Minutes") plain_text_type (fun _ => None)
    (fun _ _ => false) stdout_rejects kb (py "notes.txt") w.

(** ** Auxiliary notions for the normaliser *)

(** Lines 358-362 of [clean_filename]: what becomes of the name part. *)
Definition sanitize (name : str) : str :=
  Py.rstrip dot_or_space
    (Py.join (py " ")
       (Py.split (List.filter (fun c => negb (forbidden c)) name))).

(** A word: a non-empty string without whitespace. *)
Definition word (w : str) : Prop :=
  w <> [] /\ Forall (fun c => Py.isspace c = false) w.

(** Every whitespace character of [s] is a single space between two
    other characters; [after_space] tells whether the previous character
    was a space (or there was none). *)
Fixpoint single_spaced_from (after_space : bool) (s : str) : bool :=
  match s with
  | [] => negb after_space
  | c :: s' =>
      if Py.isspace c
      then Ascii.eqb c " "%char && negb after_space
           && single_spaced_from true s'
      else single_spaced_from false s'
  end.

Definition single_spaced (s : str) : bool :=
  match s with
  | [] => true
  | _ => single_spaced_from true s
  end.

(** The base name [clean_filename] puts before the extension. *)
Definition cleaned_base (name : str) : str :=
  match sanitize name with
  | [] => renamed_file
  | n => n
  end.

(** [s] ends with [x] up to letter case. *)
Definition ends_with_ci (s x : str) : Prop :=
  exists pre suf, s = pre ++ suf /\ Py.lower suf = Py.lower x.

(** The normaliser of the specification's section 4.6: reconcile the
    extension, then sanitise. *)
Definition normalize (raw_suggestion original_extension : str) : str :=
  clean_filename (ensure_extension raw_suggestion original_extension).

(** C3 as stated, in its weakest reading: the name ends with the
    extension (up to letter case) and what precedes that ending does not
    end with the extension again. *)
Definition carries_extension_once (name ext : str) : bool :=
  Py.endswith (Py.lower name) (Py.lower ext)
  && negb (Py.endswith
             (Py.lower (take (length name - length ext)%nat name))
             (Py.lower ext)).

(** An ordinary extension: a dot followed by at least one character, none
    of them a dot, whitespace or a reserved character. *)
Definition plain_char (c : ascii) : bool :=
  negb (Ascii.eqb c "."%char) && negb (Py.isspace c) && negb (forbidden c).

Definition plain_extension (ext : str) : bool :=
  match ext with
  | d :: c :: e => Ascii.eqb d "."%char && forallb plain_char (c :: e)
  | _ => false
  end.

(** The dots of [s] all come first: [s] is a run of dots followed by
    characters that are not dots. *)
Definition dots_first (s : str) : Prop :=
  exists d r,
    s = d ++ r /\ Forall (fun c => c = PosixPath.extsep) d
    /\ (PosixPath.extsep ∉ r).

(** ** The claims of the specification, as definitions *)

(** The first extension table that holds [extension], in the order of the
    classifier. *)
Definition extension_tables : list (list str * category) :=
  [(IMAGE_EXTENSIONS, image_cat); (TEXT_EXTENSIONS, text_cat);
   (PDF_EXTENSIONS, pdf_cat); (DOCUMENT_EXTENSIONS, document_cat);
   (SPREADSHEET_EXTENSIONS, spreadsheet_cat);
   (PRESENTATION_EXTENSIONS, presentation_cat)].

Definition table_category (extension : str) : option category :=
  snd <$> List.find (fun t => Py.contains (fst t) extension) extension_tables.

(** The category the MIME tests select. *)
Definition mime_category (mime : str) : option category :=
  if Py.startswith mime (py "image/") then Some image_cat
  else if Py.startswith mime (py "text/")
          || Py.startswith mime (py "application/json") then Some text_cat
  else if Py.eqb mime (py "application/pdf") then Some pdf_cat
  else None.

(** The classifier of the specification's section 4.1: extension tables
    first, the MIME tests only when no table holds the extension. *)
Definition classify_extension_first (file_path mime : str) : category :=
  match table_category (Py.lower (PosixPath.suffix file_path)) with
  | Some c => c
  | None => default binary_cat (mime_category mime)
  end.

(** The position of a category in the order of precedence. *)
Definition precedence (c : category) : nat :=
  match c with
  | image_cat => 0 | text_cat => 1 | pdf_cat => 2 | document_cat => 3
  | spreadsheet_cat => 4 | presentation_cat => 5 | binary_cat => 6
  end%nat.

Definition earliest (a b : option category) : category :=
  match a, b with
  | Some x, Some y => if (precedence x <=? precedence y)%nat then x else y
  | Some x, None => x
  | None, Some y => y
  | None, None => binary_cat
  end.

(** The MIME type of an encoding format. *)
Definition format_mime (f : img_format) : str :=
  match f with
  | JPEG => py "image/jpeg"
  | PNG => py "image/png"
  end.

Example splitext_txt :
  PosixPath.splitext (py "a/b:c*.txt") = (py "a/b:c*", py ".txt").
Proof. reflexivity. Qed.

Example splitext_hidden : PosixPath.splitext (py "x/.a") = (py "x/.a", []).
Proof. reflexivity. Qed.

Example suffix_upper : PosixPath.suffix (py "a/b.TXT/") = py ".TXT".
Proof. reflexivity. Qed.

Example suffix_hidden : PosixPath.suffix (py ".bashrc") = [].
Proof. reflexivity. Qed.

Example split_words :
  Py.split (py "  a  b c ") = [py "a"; py "b"; py "c"].
Proof. reflexivity. Qed.

(** The nine reserved characters, among all 256. *)
Example forbidden_characters :
  List.filter forbidden (map Py.chr (map Z.of_nat (seq 0 256)))
  = Py.chr 34 :: py "*/:<>?\|".
Proof. reflexivity. Qed.

Example clean_example : clean_filename (py "a/b:c*.txt") = py "abc.txt".
Proof. reflexivity. Qed.

Example ensure_example : ensure_extension (py "Report.PDF") (py ".pdf") = py "Report.PDF".
Proof. reflexivity. Qed.

(** ** The category classifier *)

Section Classifier.

(** The classifier picks the earliest category that the extension or the
    MIME type selects. *)
Lemma get_file_category_earliest (file_path mime : str) :
  get_file_category file_path mime
  = earliest (table_category (Py.lower (PosixPath.suffix file_path)))
             (mime_category mime).
Proof.
  unfold get_file_category, table_category, mime_category,
    extension_tables, Py.startswith_any.
  set (e := Py.lower (PosixPath.suffix file_path)).
  cbn [List.find fst snd existsb].
  destruct (Py.contains IMAGE_EXTENSIONS e),
    (Py.contains TEXT_EXTENSIONS e), (Py.contains PDF_EXTENSIONS e),
    (Py.contains DOCUMENT_EXTENSIONS e),
    (Py.contains SPREADSHEET_EXTENSIONS e),
    (Py.contains PRESENTATION_EXTENSIONS e),
    (Py.startswith mime (py "image/")), (Py.startswith mime (py "text/")),
    (Py.startswith mime (py "application/json")),
    (Py.eqb mime (py "application/pdf")); reflexivity.
Qed.

End Classifier.

(** C1, as stated, fails: a [.pdf] path with an [image/png] MIME type is
    classified as an image, although the first table holding [.pdf] is the
    pdf table. *)
Lemma classify_mime_overrides_extension :
  table_category (Py.lower (PosixPath.suffix (py "scan.pdf"))) = Some pdf_cat
  /\ get_file_category (py "scan.pdf") (py "image/png") = image_cat
  /\ get_file_category (py "scan.pdf") (py "image/png")
     <> classify_extension_first (py "scan.pdf") (py "image/png").
Proof. repeat split; vm_compute; congruence. Qed.

(** C1, amended: for every path and MIME string the classifier returns the
    earliest category, in the order image, text, pdf, document, spreadsheet,
    presentation, that the lowercased extension (through the first table
    holding it) or the MIME test selects, and binary when neither selects
    one.  So the MIME type decides alone when no table holds the extension,
    the first table holding the extension decides when no MIME test
    matches, and a MIME test of an earlier category wins over the table. *)
Theorem classify_earliest_of_extension_and_mime (file_path mime : str) :
  let extension := Py.lower (PosixPath.suffix file_path) in
  get_file_category file_path mime
  = earliest (table_category extension) (mime_category mime)
  /\ (table_category extension = None ->
      get_file_category file_path mime
      = default binary_cat (mime_category mime))
  /\ (mime_category mime = None ->
      get_file_category file_path mime
      = default binary_cat (table_category extension))
  /\ (forall c, table_category extension = Some c ->
      (precedence (get_file_category file_path mime) <= precedence c)%nat).
Proof.
  intros extension. pose proof (get_file_category_earliest file_path mime) as E.
  fold extension in E. rewrite E. repeat split.
  - intros ->. by destruct (mime_category mime).
  - intros ->. by destruct (table_category extension).
  - intros c ->. destruct (mime_category mime) as [m|]; cbn; [|lia].
    destruct (Nat.leb_spec (precedence c) (precedence m)); lia.
Qed.

Lemma classify_earliest_of_extension_and_mime_witness :
  get_file_category (py "data.bin") (py "application/pdf") = pdf_cat
  /\ get_file_category (py "notes.DOCX") (py "application/octet-stream")
     = document_cat.
Proof.
  split.
  - apply (proj1 (proj2 (classify_earliest_of_extension_and_mime
                           (py "data.bin") (py "application/pdf")))).
    reflexivity.
  - apply (proj1 (proj2 (proj2 (classify_earliest_of_extension_and_mime
             (py "notes.DOCX") (py "application/octet-stream"))))).
    reflexivity.
Defined.

(** C9, as stated, fails: a path whose extension is [.csv] is classified
    as an image when its MIME type starts with [image/].  For the first
    path, which has the syntax of a data URL, [image/png] is the type
    [mimetypes.guess_type] gives. *)
Lemma csv_with_image_mime_is_image :
  (Py.lower (PosixPath.suffix (py "data:image/png,x.csv")) = py ".csv"
   /\ get_file_category (py "data:image/png,x.csv") (py "image/png")
      = image_cat)
  /\ (Py.lower (PosixPath.suffix (py "Sales.csv")) = py ".csv"
      /\ get_file_category (py "Sales.csv") (py "image/x-csv") = image_cat).
Proof. repeat split. Qed.

(** C9, amended: for every path whose extension is [.csv], in any letter
    case, the classifier answers text for every MIME type that does not
    start with [image/], and image for the others.  Text is the answer of
    the tables: [.csv] is in the text table and in the spreadsheet table,
    and the text table is tested first; so it is also the answer for a
    MIME type that no MIME test matches. *)
Theorem csv_is_text_unless_mime_is_image (file_path mime : str) :
  Py.lower (PosixPath.suffix file_path) = py ".csv" ->
  Py.contains TEXT_EXTENSIONS (py ".csv") = true
  /\ Py.contains SPREADSHEET_EXTENSIONS (py ".csv") = true
  /\ table_category (Py.lower (PosixPath.suffix file_path)) = Some text_cat
  /\ get_file_category file_path mime
     = (if Py.startswith mime (py "image/") then image_cat else text_cat)
  /\ (mime_category mime = None -> get_file_category file_path mime = text_cat).
Proof.
  intros Hext. split; [reflexivity|]. split; [reflexivity|].
  split; [by rewrite Hext|].
  assert (get_file_category file_path mime
          = (if Py.startswith mime (py "image/") then image_cat else text_cat))
    as Hcat.
  { unfold get_file_category. rewrite Hext.
    by destruct (Py.startswith mime (py "image/")). }
  split; [exact Hcat|]. intros Hnone. rewrite Hcat.
  unfold mime_category in Hnone.
  by destruct (Py.startswith mime (py "image/")).
Qed.

Lemma csv_is_text_unless_mime_is_image_witness :
  get_file_category (py "exports/Sales.CSV") (py "application/vnd.ms-excel")
  = text_cat.
Proof.
  apply (proj2 (proj2 (proj2 (proj2 (csv_is_text_unless_mime_is_image
           (py "exports/Sales.CSV") (py "application/vnd.ms-excel") eq_refl))))).
  reflexivity.
Defined.

(** ** The image preview *)

Section ImagePreview.

Lemma saved_size_plan (img : image) :
  saved_size (save_plan img) = resized_size (dimensions img).
Proof. unfold save_plan. by destruct (Py.eqb _ _). Qed.

(** The truncated quotient is within one unit of the exact one. *)
Lemma quot_cross_bound (a b : Z) :
  0 < b -> Z.abs (b * Z.quot a b - a) < b.
Proof.
  intros Hb. pose proof (Z.quot_rem' a b) as Hq.
  pose proof (Z.rem_bound_abs a b ltac:(lia)) as Hr. lia.
Qed.

Lemma quot_scaled_le (a b k : Z) :
  0 < b -> 0 <= k -> a <= b -> Z.quot (a * k) b <= k.
Proof.
  intros Hb Hk Hab. pose proof (quot_cross_bound (a * k) b Hb) as Hq.
  nia.
Qed.

Lemma quot_scaled_lt (a b k : Z) :
  0 < b -> 0 < k -> a < b -> Z.quot (a * k) b < k.
Proof.
  intros Hb Hk Hab.
  destruct (Z.le_gt_cases 0 a) as [Ha | Ha].
  - apply Z.quot_lt_upper_bound; nia.
  - pose proof (Z.quot_opp_l (- (a * k)) b ltac:(lia)) as Ho.
    rewrite Z.opp_involutive in Ho.
    pose proof (Z.quot_pos (- (a * k)) b ltac:(nia) Hb). lia.
Qed.

End ImagePreview.

(** C8: when the width or the height of the original exceeds 1024, the
    size the builder computes has its longer side equal to 1024, and its
    sides are in the original ratio up to the truncation of the shorter
    one, which is less than one pixel ([|nw * h - nh * w| < max w h]); an
    image with both sides at most 1024 keeps its size. *)
Theorem resize_keeps_ratio_and_caps_1024 (img : image) (w h nw nh : Z) :
  dimensions img = (w, h) ->
  saved_size (save_plan img) = (nw, nh) ->
  (max_dimension < w \/ max_dimension < h ->
     Z.max nw nh = 1024 /\ Z.abs (nw * h - nh * w) < Z.max w h)
  /\ (w <= max_dimension -> h <= max_dimension -> (nw, nh) = (w, h)).
Proof.
  intros Hd Hs. rewrite saved_size_plan, Hd in Hs. unfold resized_size in Hs.
  unfold max_dimension in *. split.
  - intros Hbig.
    assert ((1024 <? w) || (1024 <? h) = true) as Hguard.
    { apply orb_true_iff. destruct Hbig; [left | right]; by apply Z.ltb_lt. }
    rewrite Hguard in Hs. destruct (Z.ltb_spec h w) as [Hlt | Hge].
    + injection Hs as <- <-.
      pose proof (quot_scaled_lt h w 1024 ltac:(lia) ltac:(lia) Hlt).
      pose proof (quot_cross_bound (h * 1024) w ltac:(lia)). split; lia.
    + injection Hs as <- <-.
      pose proof (quot_scaled_le w h 1024 ltac:(lia) ltac:(lia) Hge).
      pose proof (quot_cross_bound (w * 1024) h ltac:(lia)). split; lia.
  - intros Hw Hh.
    assert ((1024 <? w) || (1024 <? h) = false) as Hguard.
    { apply orb_false_iff. split; apply Z.ltb_ge; lia. }
    by rewrite Hguard in Hs.
Qed.

Lemma resize_keeps_ratio_and_caps_1024_witness :
  (Z.max 1024 682 = 1024 /\ Z.abs (1024 * 2000 - 682 * 3000) < Z.max 3000 2000)
  /\ ((800, 600) = (800, 600)).
Proof.
  split.
  - apply (proj1 (resize_keeps_ratio_and_caps_1024
             {| mode := py "RGB"; dimensions := (3000, 2000) |}
             3000 2000 1024 682 eq_refl eq_refl)).
    left. reflexivity.
  - apply (proj2 (resize_keeps_ratio_and_caps_1024
             {| mode := py "RGBA"; dimensions := (800, 600) |}
             800 600 800 600 eq_refl eq_refl)); discriminate.
Defined.

(** The format the builder chooses: PNG for mode [RGBA], otherwise JPEG at
    quality 85 after conversion to [RGB]; both with [optimize]. *)
Lemma save_plan_format (img : image) :
  (mode img = py "RGBA" ->
     format (save_plan img) = PNG /\ quality (save_plan img) = None
     /\ saved_mode (save_plan img) = py "RGBA")
  /\ (mode img <> py "RGBA" ->
     format (save_plan img) = JPEG /\ quality (save_plan img) = Some 85
     /\ saved_mode (save_plan img) = py "RGB")
  /\ optimize (save_plan img) = true.
Proof.
  unfold save_plan, Py.eqb. case_bool_decide as Hm; cbn.
  - split; [auto | split; [intros Hne; by destruct Hne | reflexivity]].
  - split; [intros He; by destruct Hm | auto].
Qed.

(** C4 at an [RGBA] image: the builder encodes PNG, and the data URI of
    [suggest_image_filename] announces [image/jpeg], which is not the MIME
    type of PNG. *)
Theorem rgba_preview_is_png_labelled_jpeg (save_base64 : save_call -> str) :
  let img := {| mode := py "RGBA"; dimensions := (640, 480) |} in
  format (save_plan img) = PNG
  /\ image_url save_base64 img
     = py "data:image/jpeg;base64," ++ save_base64 (save_plan img)
  /\ Py.startswith (image_url save_base64 img)
       (py "data:" ++ format_mime (format (save_plan img))) = false
  /\ Py.startswith (image_url save_base64 img)
       (py "data:" ++ format_mime JPEG) = true.
Proof. repeat split. Qed.

(** ** The orchestrator *)

Section Orchestrator.

Variable Image_open : str -> option image.
Variable save_base64 : save_call -> str.
Variable b64encode : str -> str.
Variable decode_utf8 : str -> option str.
Variable gateway : list content_part -> reply.
Variable guess_type : str -> option str.

Let run :=
  rename_single_file Image_open save_base64 b64encode decode_utf8 gateway
    guess_type.
Let suggest :=
  suggest_filename Image_open save_base64 b64encode decode_utf8 gateway.
Let mime_of (file_path : str) :=
  or_else (guess_type file_path) (py "application/octet-stream").

(** The run of an invocation that passes the two guards and obtains a
    suggestion. *)
Lemma run_after_suggestion dir input file_path data new_filename :
  dir !! PosixPath.name file_path = Some (regular_file data) ->
  Z.of_nat (length data) <= MAX_FILE_BYTES ->
  suggest data (PosixPath.name file_path) (mime_of file_path)
    (get_file_category file_path (mime_of file_path)) = Some new_filename ->
  run dir input file_path
  = match destination (PosixPath.name file_path) new_filename with
    | Some target =>
        if bool_decide (is_Some (dir !! target))
        then {| returned := false; printed := [target_exists target];
                entries := dir |}
        else
          let '(accepted, asked) := get_user_confirmation input target in
          if accepted
          then {| returned := true;
                  printed := asked ++ [successfully_renamed target];
                  entries := <[target := regular_file data]>
                               (delete (PosixPath.name file_path) dir) |}
          else {| returned := true; printed := asked; entries := dir |}
    | None => {| returned := true;
                 printed := [keeping_original (PosixPath.name file_path)];
                 entries := dir |}
    end.
Proof.
  intros Hfile Hsize Hsug. unfold run, rename_single_file.
  rewrite Hfile. destruct (Z.ltb_spec MAX_FILE_BYTES (Z.of_nat (length data)));
    [lia|].
  unfold suggest, mime_of in Hsug. by rewrite Hsug.
Qed.

(** A reconciled name equal to the original is kept: success, nothing
    changes. *)
Lemma same_name_is_kept dir input file_path data :
  dir !! PosixPath.name file_path = Some (regular_file data) ->
  Z.of_nat (length data) <= MAX_FILE_BYTES ->
  suggest data (PosixPath.name file_path) (mime_of file_path)
    (get_file_category file_path (mime_of file_path))
    = Some (PosixPath.name file_path) ->
  run dir input file_path
  = {| returned := true;
       printed := [keeping_original (PosixPath.name file_path)];
       entries := dir |}.
Proof.
  intros Hfile Hsize Hsug.
  rewrite (run_after_suggestion _ _ _ _ _ Hfile Hsize Hsug).
  unfold destination, Py.eqb.
  destruct (PosixPath.name file_path); [done|]. by rewrite bool_decide_eq_true_2.
Qed.

(** A reconciled name that differs from the original and is cleaned to
    it collides with the target itself. *)
Lemma cleaned_to_original_collides dir input file_path data new_filename :
  dir !! PosixPath.name file_path = Some (regular_file data) ->
  Z.of_nat (length data) <= MAX_FILE_BYTES ->
  suggest data (PosixPath.name file_path) (mime_of file_path)
    (get_file_category file_path (mime_of file_path)) = Some new_filename ->
  new_filename <> [] ->
  new_filename <> PosixPath.name file_path ->
  clean_filename new_filename = PosixPath.name file_path ->
  run dir input file_path
  = {| returned := false;
       printed := [target_exists (PosixPath.name file_path)];
       entries := dir |}.
Proof.
  intros Hfile Hsize Hsug Hnil Hne Hclean.
  rewrite (run_after_suggestion _ _ _ _ _ Hfile Hsize Hsug).
  unfold destination, Py.eqb. destruct new_filename as [|c n].
  - done.
  - rewrite bool_decide_eq_false_2 by done. rewrite Hclean.
    rewrite bool_decide_eq_true_2; [done|]. by rewrite Hfile.
Qed.


End Orchestrator.


(** C2 at the file [notes.txt] with the suggestion [notes:]: the
    normalised name is the original name, and the run reports a collision
    of the file with itself and returns failure; the directory is
    unchanged. *)
Theorem cleaned_to_original_is_reported_as_collision :
  let dir : gmap str entry :=
    {[ py "notes.txt" := regular_file (py "Meeting minutes") ]} in
  ensure_extension (py "notes:") (PosixPath.suffix (py "notes.txt"))
  = py "notes:.txt"
  /\ clean_filename (py "notes:.txt") = py "notes.txt"
  /\ rename_single_file (fun _ => None) (fun _ => []) id Some
       (answering "notes:") plain_text_type dir not_a_tty (py "notes.txt")
     = {| returned := false; printed := [target_exists (py "notes.txt")];
          entries := dir |}.
Proof. repeat split. Qed.

(** ** Facts about the string primitives *)

Section StringFacts.

Implicit Types (s p x : str) (c : ascii) (P : ascii -> bool).

(** *** rfind *)

Lemma rfind_range c s : -1 <= Py.rfind c s < Z.of_nat (length s).
Proof.
  induction s as [|x s IH]; cbn [Py.rfind length]; [lia|].
  destruct (Z.leb_spec 0 (Py.rfind c s)); [lia|].
  destruct (Ascii.eqb x c); lia.
Qed.

Lemma rfind_absent c s : (c ∉ s) -> Py.rfind c s = -1.
Proof.
  induction s as [|x s IH]; intros Hn; cbn [Py.rfind]; [done|].
  apply not_elem_of_cons in Hn as [Hx Hs]. rewrite (IH Hs). cbn.
  destruct (Ascii.eqb_spec x c); congruence.
Qed.

Lemma rfind_present c s : c ∈ s -> 0 <= Py.rfind c s.
Proof.
  induction s as [|x s IH]; intros Hin; [by apply elem_of_nil in Hin|].
  cbn [Py.rfind]. destruct (Z.leb_spec 0 (Py.rfind c s)) as [|Hneg]; [lia|].
  apply elem_of_cons in Hin as [-> | Hin]; [|specialize (IH Hin); lia].
  by rewrite Ascii.eqb_refl.
Qed.

Lemma rfind_last_occurrence c pre post :
  (c ∉ post) -> Py.rfind c (pre ++ c :: post) = Z.of_nat (length pre).
Proof.
  intros Hn. induction pre as [|x pre IH]; cbn [app Py.rfind length].
  - rewrite (rfind_absent _ _ Hn). cbn. by rewrite Ascii.eqb_refl.
  - rewrite IH. destruct (Z.leb_spec 0 (Z.of_nat (length pre))); lia.
Qed.

Lemma rfind_suffix c pre post :
  c ∈ post ->
  Py.rfind c (pre ++ post) = Z.of_nat (length pre) + Py.rfind c post.
Proof.
  intros Hin. pose proof (rfind_present _ _ Hin) as Hpos.
  induction pre as [|x pre IH]; cbn [app Py.rfind length]; [lia|].
  rewrite IH. destruct (Z.leb_spec 0 (Z.of_nat (length pre) + Py.rfind c post));
    lia.
Qed.

Lemma rfind_decompose c s :
  0 <= Py.rfind c s ->
  exists pre post, s = pre ++ c :: post /\ (c ∉ post)
                   /\ Py.rfind c s = Z.of_nat (length pre).
Proof.
  induction s as [|x s IH]; cbn [Py.rfind]; [lia|].
  destruct (Z.leb_spec 0 (Py.rfind c s)) as [Hpos | Hneg].
  - intros _. destruct (IH Hpos) as (pre & post & -> & Hn & Hr).
    exists (x :: pre), post. repeat split; [done|]. cbn [length]. lia.
  - destruct (Ascii.eqb_spec x c) as [-> | Hne]; [|lia]. intros _.
    exists [], s. repeat split. intros Hin.
    apply rfind_present in Hin. lia.
Qed.

(** *** splitext *)

Lemma splitext_concat p :
  fst (PosixPath.splitext p) ++ snd (PosixPath.splitext p) = p.
Proof.
  unfold PosixPath.splitext. destruct (_ && _); cbn; [|by rewrite app_nil_r].
  apply take_drop.
Qed.

(** The extension is empty or starts at the last dot. *)
Lemma splitext_at_last_dot pre e :
  (PosixPath.extsep ∉ e) ->
  PosixPath.splitext (pre ++ PosixPath.extsep :: e)
    = (pre, PosixPath.extsep :: e)
  \/ PosixPath.splitext (pre ++ PosixPath.extsep :: e)
    = (pre ++ PosixPath.extsep :: e, []).
Proof.
  intros Hn. unfold PosixPath.splitext.
  rewrite (rfind_last_occurrence _ _ _ Hn). destruct (_ && _); [left|by right].
  rewrite Nat2Z.id. by rewrite take_app_length, drop_app_length.
Qed.

Lemma splitext_cases p :
  PosixPath.splitext p = (p, [])
  \/ exists pre e,
       p = pre ++ PosixPath.extsep :: e /\ (PosixPath.extsep ∉ e)
       /\ (PosixPath.sep ∉ e)
       /\ PosixPath.splitext p = (pre, PosixPath.extsep :: e).
Proof.
  unfold PosixPath.splitext.
  destruct (Z.ltb_spec (Py.rfind PosixPath.sep p) (Py.rfind PosixPath.extsep p))
    as [Hlt | Hge]; cbn [andb]; [|by left].
  destruct (existsb _ _); [|by left]. right.
  pose proof (rfind_range PosixPath.sep p) as Hsep.
  destruct (rfind_decompose PosixPath.extsep p ltac:(lia))
    as (pre & e & -> & Hn & Hr).
  exists pre, e. rewrite Hr, Nat2Z.id, take_app_length, drop_app_length.
  repeat split; try done.
  intros Hin. rewrite Hr in Hlt.
  assert (PosixPath.sep ∈ PosixPath.extsep :: e) as Hin'
    by (by apply elem_of_cons; right).
  rewrite (rfind_suffix _ _ _ Hin') in Hlt.
  pose proof (rfind_present _ _ Hin'). lia.
Qed.

End StringFacts.

Section WordFacts.

Implicit Types (s w cur : str) (ws : list str) (c : ascii)
  (P : ascii -> bool).

Local Abbreviation nonspace := (fun c => negb (Py.isspace c)).

(** *** split *)

Lemma split_from_word w cur s :
  Forall (fun c => Py.isspace c = false) w ->
  Py.split_from cur (w ++ s) = Py.split_from (rev w ++ cur) s.
Proof.
  intros Hw. revert cur. induction Hw as [|c w Hc Hw IH]; intros cur; [done|].
  cbn [app Py.split_from rev]. rewrite Hc, IH. by rewrite <- app_assoc.
Qed.

Lemma split_from_words cur s :
  Forall (fun c => Py.isspace c = false) cur ->
  Forall word (Py.split_from cur s).
Proof.
  revert cur. induction s as [|c s IH]; intros cur Hcur; cbn [Py.split_from].
  - destruct cur as [|a cur]; [constructor|]. constructor; [|constructor].
    split.
    + intros Hr. apply (f_equal (@length ascii)) in Hr.
      rewrite length_rev in Hr. done.
    + by apply List.Forall_rev.
  - destruct (Py.isspace c) eqn:Hc.
    + destruct cur as [|a cur]; [by apply IH|]. constructor; [|by apply IH].
      split.
      * intros Hr. apply (f_equal (@length ascii)) in Hr.
        rewrite length_rev in Hr. done.
      * by apply List.Forall_rev.
    + apply IH. by constructor.
Qed.

Lemma split_gives_words s : Forall word (Py.split s).
Proof. by apply split_from_words. Qed.

Lemma concat_split_from cur s :
  concat (Py.split_from cur s) = rev cur ++ List.filter nonspace s.
Proof.
  revert cur. induction s as [|c s IH]; intros cur;
    cbn [Py.split_from List.filter].
  - destruct cur; [done|]. cbn [concat]. by rewrite !app_nil_r.
  - destruct (Py.isspace c); cbn [negb].
    + destruct cur as [|a cur]; [by rewrite IH|].
      cbn [concat]. by rewrite IH.
    + rewrite IH. cbn [rev]. by rewrite <- app_assoc.
Qed.

(** *** join *)

Lemma join_cons w ws :
  Py.join (py " ") (w :: ws)
  = w ++ match ws with [] => [] | _ => py " " ++ Py.join (py " ") ws end.
Proof. destruct ws; cbn [Py.join]; [by rewrite app_nil_r | done]. Qed.

Lemma split_join ws :
  Forall word ws -> Py.split (Py.join (py " ") ws) = ws.
Proof.
  induction 1 as [|w ws [Hne Hw] Hws IH]; [done|].
  rewrite join_cons. unfold Py.split. rewrite (split_from_word _ _ _ Hw).
  rewrite app_nil_r.
  assert (rev w <> []) as Hrev.
  { intros Hr. apply Hne. by rewrite <- (rev_involutive w), Hr. }
  destruct ws as [|w' ws].
  - cbn [Py.split_from]. destruct (rev w) eqn:Hr; [done|].
    by rewrite <- Hr, rev_involutive.
  - change (py " " ++ ?x) with (" "%char :: x).
    cbn [Py.split_from]. change (Py.isspace " "%char) with true. cbn iota.
    destruct (rev w) eqn:Hr; [done|]. rewrite <- Hr, rev_involutive.
    f_equal. apply IH.
Qed.

Lemma join_elem c ws :
  c ∈ Py.join (py " ") ws -> c = " "%char \/ exists w, w ∈ ws /\ c ∈ w.
Proof.
  induction ws as [|w ws IH]; [by intros ?%elem_of_nil|].
  rewrite join_cons. intros [Hw | Hr]%elem_of_app.
  - right. exists w. split; [by left | done].
  - destruct ws as [|w' ws]; [by apply elem_of_nil in Hr|].
    apply elem_of_cons in Hr as [-> | Hr]; [by left|].
    destruct (IH Hr) as [-> | (v & Hv & Hc)]; [by left|].
    right. exists v. split; [by right | done].
Qed.

Lemma filter_nonspace_join ws :
  Forall word ws ->
  List.filter nonspace (Py.join (py " ") ws) = concat ws.
Proof.
  induction 1 as [|w ws [Hne Hw] Hws IH]; [done|].
  rewrite join_cons, List.filter_app. cbn [concat]. f_equal.
  - apply forallb_filter_id. apply forallb_forall. intros x Hx.
    by rewrite (proj1 (List.Forall_forall _ _) Hw x Hx).
  - destruct ws; [done|]. exact IH.
Qed.

(** *** rstrip *)

Lemma rstrip_app P a b :
  Py.rstrip P (a ++ b)
  = match Py.rstrip P b with [] => Py.rstrip P a | r => a ++ r end.
Proof.
  induction a as [|c a IH]; cbn [app Py.rstrip]; [by destruct (Py.rstrip P b)|].
  rewrite IH. destruct (Py.rstrip P b) eqn:Hb; [done|].
  by destruct a.
Qed.

Lemma rstrip_decompose P s :
  exists t, s = Py.rstrip P s ++ t /\ Forall (fun c => P c = true) t.
Proof.
  induction s as [|c s (t & Hs & Ht)]; [by exists []|]. cbn [Py.rstrip].
  destruct (Py.rstrip P s) eqn:Hr.
  - destruct (P c) eqn:Hc.
    + exists (c :: s). split; [done|]. cbn in Hs. subst t. by constructor.
    + exists t. split; [by rewrite Hs at 1|done].
  - exists t. split; [|done]. cbn [app]. by rewrite Hs at 1.
Qed.

Lemma rstrip_keeps_last P s c :
  P c = false -> Py.rstrip P (s ++ [c]) = s ++ [c].
Proof.
  intros Hc. rewrite rstrip_app. cbn [Py.rstrip]. by rewrite Hc.
Qed.

Lemma rstrip_last P s pre c :
  Py.rstrip P s = pre ++ [c] -> P c = false.
Proof.
  revert pre. induction s as [|x s IH]; intros pre; cbn [Py.rstrip].
  - by destruct pre.
  - destruct (Py.rstrip P s) as [|y r] eqn:Hr.
    + destruct (P x) eqn:Hx; [by destruct pre|].
      destruct pre as [|? [|? ?]]; intros [= <-]; done.
    + destruct pre as [|p pre]; [intros [= _ ?]; done|].
      intros [= _ Heq]. by apply (IH pre).
Qed.

Lemma rstrip_fixed P s : Py.rstrip P (Py.rstrip P s) = Py.rstrip P s.
Proof.
  destruct (Py.rstrip P s) as [|x r] eqn:Hr using rev_ind; [done|].
  apply rstrip_keeps_last. by apply (rstrip_last P s r).
Qed.

Lemma rstrip_prefix_word P w :
  Forall (fun c => Py.isspace c = false) w ->
  Py.rstrip P w = [] \/ word (Py.rstrip P w).
Proof.
  intros Hw. destruct (Py.rstrip P w) as [|c r] eqn:Hr; [by left|]. right.
  split; [done|]. destruct (rstrip_decompose P w) as (t & Hs & _).
  rewrite Hr in Hs. rewrite Hs in Hw. by apply Forall_app in Hw as [? _].
Qed.

Lemma rstrip_join ws :
  Forall word ws ->
  exists ws', Forall word ws'
    /\ Py.rstrip dot_or_space (Py.join (py " ") ws) = Py.join (py " ") ws'.
Proof.
  induction 1 as [|w ws [Hne Hw] Hws (ws' & Hws' & IH)]; [by exists []|].
  rewrite join_cons, rstrip_app.
  assert (Py.rstrip dot_or_space w = []
          \/ word (Py.rstrip dot_or_space w)) as Hcase
    by by apply rstrip_prefix_word.
  assert (exists v, Forall word v
            /\ Py.rstrip dot_or_space w = Py.join (py " ") v) as Hlone.
  { destruct Hcase as [-> | Hword]; [by exists []|].
    exists [Py.rstrip dot_or_space w]. split; [by constructor|done]. }
  destruct ws as [|w' ws]; [done|].
  change (py " " ++ ?x) with ([" "%char] ++ x). rewrite rstrip_app, IH.
  destruct ws' as [|v ws'].
  - cbn [Py.join Py.rstrip]. change (dot_or_space " "%char) with true.
    cbn iota. exact Hlone.
  - exists (w :: v :: ws'). split; [by constructor|].
    destruct (Py.join (py " ") (v :: ws')) eqn:Hj.
    + exfalso. apply Forall_cons in Hws' as [[Hv _] _].
      rewrite join_cons in Hj. by apply app_eq_nil in Hj as [? _].
    + cbn [app]. rewrite (join_cons w), Hj. done.
Qed.

End WordFacts.

(** ** The sanitiser *)

Section Sanitizer.

Implicit Types (s name : str) (ws : list str) (c : ascii).

Local Abbreviation nonspace := (fun c => negb (Py.isspace c)).
Local Abbreviation allowed := (fun c => negb (forbidden c)).

Lemma clean_filename_unfold filename :
  clean_filename filename
  = cleaned_base (fst (PosixPath.splitext filename))
    ++ snd (PosixPath.splitext filename).
Proof.
  unfold clean_filename, cleaned_base, sanitize.
  destruct (PosixPath.splitext filename) as [name ext]. cbn [fst snd].
  by destruct (Py.rstrip _ _).
Qed.

Lemma sanitize_join_of_words name :
  exists ws, Forall word ws /\ sanitize name = Py.join (py " ") ws.
Proof. apply rstrip_join, split_gives_words. Qed.

Lemma sanitize_fixed name :
  Py.rstrip dot_or_space (sanitize name) = sanitize name.
Proof. apply rstrip_fixed. Qed.

Lemma sanitize_last name pre c :
  sanitize name = pre ++ [c] -> dot_or_space c = false.
Proof. apply rstrip_last. Qed.

Lemma collapse_elem c s :
  c ∈ Py.join (py " ") (Py.split s) -> c = " "%char \/ c ∈ s.
Proof.
  intros [-> | (w & Hw & Hc)]%join_elem; [by left|]. right.
  assert (In c (concat (Py.split s))) as Hin.
  { apply in_concat. exists w. split; by apply list_elem_of_In. }
  unfold Py.split in Hin. rewrite concat_split_from in Hin.
  cbn [rev app] in Hin. apply filter_In in Hin as [Hin _].
  by apply list_elem_of_In.
Qed.

Lemma sanitize_elem c name :
  c ∈ sanitize name -> c = " "%char \/ (c ∈ name /\ forbidden c = false).
Proof.
  intros Hc. unfold sanitize in Hc.
  destruct (rstrip_decompose dot_or_space
              (Py.join (py " ") (Py.split (List.filter allowed name))))
    as (t & Heq & _).
  assert (c ∈ Py.join (py " ") (Py.split (List.filter allowed name))) as Hj.
  { rewrite Heq. apply elem_of_app. by left. }
  apply collapse_elem in Hj as [-> | Hin]; [by left|]. right.
  apply list_elem_of_In, filter_In in Hin as [Hin Ha].
  split; [by apply list_elem_of_In|].
  by apply negb_true_iff in Ha.
Qed.

Lemma sanitize_allowed name :
  Forall (fun c => forbidden c = false) (sanitize name).
Proof.
  apply Forall_forall. intros c [-> | [_ Hc]]%sanitize_elem; done.
Qed.

Lemma cleaned_base_allowed name :
  Forall (fun c => forbidden c = false) (cleaned_base name).
Proof.
  unfold cleaned_base. pose proof (sanitize_allowed name) as H.
  destruct (sanitize name); [|done].
  apply Forall_forall. intros c Hc. apply list_elem_of_In in Hc.
  revert c Hc. apply List.Forall_forall. by vm_compute; repeat constructor.
Qed.

Lemma cleaned_base_nonempty name : cleaned_base name <> [].
Proof. unfold cleaned_base. by destruct (sanitize name). Qed.

Lemma cleaned_base_last name pre c :
  cleaned_base name = pre ++ [c] -> dot_or_space c = false.
Proof.
  unfold cleaned_base. destruct (sanitize name) as [|x r] eqn:Hs.
  - intros Heq. change renamed_file with (py "renamed_fil" ++ ["e"%char]) in Heq.
    by apply app_inj_tail in Heq as [_ <-].
  - rewrite <- Hs. apply sanitize_last.
Qed.

(** *** Single spacing *)

Lemma single_spaced_from_word b w s :
  w <> [] -> Forall (fun c => Py.isspace c = false) w ->
  single_spaced_from b (w ++ s) = single_spaced_from false s.
Proof.
  intros Hne Hw. revert b. induction Hw as [|c w Hc Hw IH]; intros b; [done|].
  cbn [app single_spaced_from]. rewrite Hc.
  destruct w as [|d w]; [done|]. by apply IH.
Qed.

Lemma single_spaced_from_join ws :
  ws <> [] -> Forall word ws ->
  single_spaced_from true (Py.join (py " ") ws) = true.
Proof.
  intros Hne Hws. induction Hws as [|w ws [Hw Hsp] Hws IH]; [done|].
  rewrite join_cons, (single_spaced_from_word _ _ _ Hw Hsp).
  destruct ws as [|w' ws]; [done|].
  change (py " " ++ ?x) with (" "%char :: x). cbn. by apply IH.
Qed.

Lemma single_spaced_join ws :
  Forall word ws -> single_spaced (Py.join (py " ") ws) = true.
Proof.
  intros Hws. unfold single_spaced.
  destruct (Py.join (py " ") ws) eqn:Hj; [done|]. rewrite <- Hj.
  apply single_spaced_from_join; [|done]. by intros ->.
Qed.

Lemma cleaned_base_single_spaced name :
  single_spaced (cleaned_base name) = true.
Proof.
  unfold cleaned_base. destruct (sanitize name) eqn:Hs; [done|].
  rewrite <- Hs. destruct (sanitize_join_of_words name) as (ws & Hws & ->).
  by apply single_spaced_join.
Qed.

(** What single spacing means, character by character. *)
Lemma single_spaced_from_sound b s :
  single_spaced_from b s = true ->
  (forall c, c ∈ s -> Py.isspace c = true -> c = " "%char)
  /\ (forall l c d r, s = l ++ c :: d :: r ->
        Py.isspace c = true -> Py.isspace d = false)
  /\ (forall c r, b = true -> s = c :: r -> Py.isspace c = false).
Proof.
  revert b. induction s as [|x s IH]; intros b Hs.
  - split; [by intros ? ?%elem_of_nil|]. split; [by intros [|? ?]|done].
  - cbn [single_spaced_from] in Hs. destruct (Py.isspace x) eqn:Hx.
    + apply andb_true_iff in Hs as [[Heq Hb]%andb_true_iff Hs].
      apply Ascii.eqb_eq in Heq. apply negb_true_iff in Hb. subst b.
      destruct (IH _ Hs) as (H1 & H2 & H3).
      split; [|split].
      * intros c [-> | Hc]%elem_of_cons Hsp; [done|]. by apply H1.
      * intros [|y l] c d r Hdec Hc; injection Hdec as -> ->.
        -- by apply (H3 d r).
        -- by apply (H2 l c d r).
      * done.
    + destruct (IH _ Hs) as (H1 & H2 & H3). split; [|split].
      * intros c [-> | Hc]%elem_of_cons Hsp; [congruence|]. by apply H1.
      * intros [|y l] c d r Hdec Hc; injection Hdec as -> ->.
        -- congruence.
        -- by apply (H2 l c d r).
      * by intros c r _ [= <- _].
Qed.

(** *** What is kept *)

Lemma sanitize_content name :
  exists dots,
    Forall (fun c => c = "."%char) dots
    /\ List.filter nonspace (sanitize name) ++ dots
       = List.filter nonspace (List.filter allowed name).
Proof.
  unfold sanitize. set (x := List.filter _ name).
  destruct (rstrip_decompose dot_or_space (Py.join (py " ") (Py.split x)))
    as (t & Heq & Ht).
  exists (List.filter nonspace t). split.
  - apply Forall_forall. intros c Hc.
    apply list_elem_of_In, filter_In in Hc as [Hin Hns].
    apply list_elem_of_In in Hin.
    pose proof (proj1 (Forall_forall _ _) Ht c Hin) as Hds.
    unfold dot_or_space in Hds. apply orb_true_iff in Hds as [Hd | Hsp].
    + by apply Ascii.eqb_eq in Hd.
    + apply Ascii.eqb_eq in Hsp. by subst c.
  - rewrite <- List.filter_app, <- Heq.
    rewrite (filter_nonspace_join _ (split_gives_words x)).
    unfold Py.split. by rewrite concat_split_from.
Qed.

(** *** Idempotence of the sanitiser *)

Lemma sanitize_idempotent name : sanitize (sanitize name) = sanitize name.
Proof.
  unfold sanitize at 1.
  rewrite (forallb_filter_id _ (sanitize name)).
  - destruct (sanitize_join_of_words name) as (ws & Hws & Heq).
    rewrite Heq at 1. rewrite (split_join _ Hws), <- Heq.
    apply sanitize_fixed.
  - apply forallb_forall. intros c Hc. apply list_elem_of_In in Hc.
    by rewrite (proj1 (Forall_forall _ _) (sanitize_allowed name) c Hc).
Qed.

Lemma cleaned_base_idempotent name :
  cleaned_base (cleaned_base name) = cleaned_base name.
Proof.
  unfold cleaned_base at 2 3. destruct (sanitize name) eqn:Hs; [reflexivity|].
  rewrite <- Hs. unfold cleaned_base. by rewrite sanitize_idempotent, Hs.
Qed.

End Sanitizer.

(** C7: [clean_filename] keeps the extension that [os.path.splitext]
    finds and puts a cleaned base name before it.  The base has no reserved
    character, every whitespace character in it is a single space between
    two others, it does not end with a dot or a space, and it is never
    empty: it is [renamed_file] when cleaning leaves nothing of the name.
    Otherwise its non-whitespace characters are those of the name that are
    not reserved, in order, up to trailing dots.  In particular
    [a/b:c*.txt] becomes [abc.txt]. *)
Theorem clean_filename_sanitizes_base (filename : str) :
  let name := fst (PosixPath.splitext filename) in
  let ext := snd (PosixPath.splitext filename) in
  let base := cleaned_base name in
  (clean_filename filename = base ++ ext
   /\ base <> []
   /\ Forall (fun c => forbidden c = false) base
   /\ single_spaced base = true
   /\ (forall pre c, base = pre ++ [c] -> c <> "."%char /\ c <> " "%char)
   /\ (sanitize name = [] -> base = py "renamed_file")
   /\ (sanitize name <> [] ->
       exists dots,
         Forall (fun c => c = "."%char) dots
         /\ List.filter (fun c => negb (Py.isspace c)) base ++ dots
            = List.filter (fun c => negb (Py.isspace c))
                (List.filter (fun c => negb (forbidden c)) name)))
  /\ clean_filename (py "a/b:c*.txt") = py "abc.txt".
Proof.
  intros name ext base. split; [|reflexivity].
  split; [apply clean_filename_unfold|].
  split; [apply cleaned_base_nonempty|].
  split; [apply cleaned_base_allowed|].
  split; [apply cleaned_base_single_spaced|].
  split.
  { intros pre c Hb. apply cleaned_base_last in Hb. unfold dot_or_space in Hb.
    apply orb_false_iff in Hb as [Hd Hs]. split; intros ->; done. }
  unfold base, cleaned_base. split.
  - by intros ->.
  - intros Hne. destruct (sanitize name) eqn:Hs; [done|]. rewrite <- Hs.
    apply sanitize_content.
Qed.

Lemma clean_filename_sanitizes_base_witness :
  cleaned_base (py "  Q3: budget  review .. ") = py "Q3 budget review"
  /\ clean_filename (py "  Q3: budget  review .. .txt")
     = py "Q3 budget review.txt"
  /\ exists dots,
       Forall (fun c => c = "."%char) dots
       /\ py "Q3budgetreview" ++ dots = py "Q3budgetreview..".
Proof.
  pose proof (clean_filename_sanitizes_base (py "  Q3: budget  review .. .txt"))
    as [(Hc & _ & _ & _ & _ & _ & Hk) _].
  split; [reflexivity|]. split; [exact Hc|].
  apply Hk. vm_compute. discriminate.
Defined.

(** ** Extension reconciliation *)

Section Reconciliation.

Implicit Types (s x raw ext pre suf : str) (c : ascii).

Lemma endswith_spec s x :
  Py.endswith s x = true <-> exists pre, s = pre ++ x.
Proof.
  unfold Py.endswith, Py.eqb. rewrite andb_true_iff, Nat.leb_le,
    bool_decide_eq_true. split.
  - intros [Hlen Hdrop]. exists (take (length s - length x) s).
    pose proof (take_drop (length s - length x) s) as Htd.
    by rewrite Hdrop in Htd.
  - intros [pre ->]. rewrite length_app. split; [lia|].
    replace (length pre + length x - length x)%nat with (length pre) by lia.
    by rewrite drop_app_length.
Qed.

Lemma lower_length s : length (Py.lower s) = length s.
Proof. apply length_map. Qed.

Lemma endswith_lower s x :
  Py.endswith (Py.lower s) (Py.lower x) = true <-> ends_with_ci s x.
Proof.
  split.
  - intros H. pose proof H as [Hlen Hdrop]%andb_true_iff.
    apply Nat.leb_le in Hlen. apply bool_decide_eq_true in Hdrop.
    rewrite !lower_length in *.
    exists (take (length s - length x) s), (drop (length s - length x) s).
    split; [by rewrite take_drop|]. rewrite <- Hdrop.
    unfold Py.lower. symmetry. apply skipn_map.
  - intros (pre & suf & -> & Hsuf). apply endswith_spec.
    exists (Py.lower pre). unfold Py.lower in *. by rewrite map_app, Hsuf.
Qed.

Lemma ensure_extension_cases raw ext :
  ensure_extension raw ext
  = match Py.strip raw with
    | [] => renamed_file ++ ext
    | bn => if bool_decide (ext <> [])
               && negb (Py.endswith (Py.lower bn) (Py.lower ext))
            then bn ++ ext else bn
    end.
Proof.
  unfold ensure_extension. destruct (Py.strip raw); [done|].
  by destruct ext.
Qed.

Lemma ensure_extension_ends raw ext :
  ext <> [] ->
  ensure_extension raw ext <> [] /\ ends_with_ci (ensure_extension raw ext) ext.
Proof.
  intros Hext. rewrite ensure_extension_cases.
  destruct (Py.strip raw) as [|b bn] eqn:Hbn.
  - split; [by destruct ext|]. by exists renamed_file, ext.
  - rewrite bool_decide_eq_true_2 by done. cbn [andb].
    destruct (Py.endswith (Py.lower (b :: bn)) (Py.lower ext)) eqn:He; cbn [negb].
    + split; [done|]. by apply endswith_lower.
    + split; [done|]. by exists (b :: bn), ext.
Qed.

Lemma ensure_extension_appends raw ext :
  Py.strip raw <> [] -> ext <> [] -> ~ ends_with_ci (Py.strip raw) ext ->
  ensure_extension raw ext = Py.strip raw ++ ext.
Proof.
  intros Hbn Hext Hends. rewrite ensure_extension_cases.
  destruct (Py.strip raw) as [|b bn]; [done|].
  rewrite bool_decide_eq_true_2 by done. cbn [andb].
  destruct (Py.endswith (Py.lower (b :: bn)) (Py.lower ext)) eqn:He; [|done].
  by apply endswith_lower in He.
Qed.

Lemma ensure_extension_keeps raw ext :
  Py.strip raw <> [] -> ext = [] \/ ends_with_ci (Py.strip raw) ext ->
  ensure_extension raw ext = Py.strip raw.
Proof.
  intros Hbn Hcase. rewrite ensure_extension_cases.
  destruct (Py.strip raw) as [|b bn]; [done|].
  destruct Hcase as [-> | Hends]; [done|].
  apply endswith_lower in Hends. cbv zeta. rewrite Hends.
  by rewrite andb_false_r.
Qed.

(** *** Letter case and plain extensions *)

Lemma lower_char_plain c : plain_char (Py.lower_char c) = plain_char c.
Proof. destruct c as [[] [] [] [] [] [] [] []]; reflexivity. Qed.

Lemma lower_char_dot c :
  Ascii.eqb (Py.lower_char c) "."%char = Ascii.eqb c "."%char.
Proof. destruct c as [[] [] [] [] [] [] [] []]; reflexivity. Qed.

Lemma plain_chars_same_case (a b : str) :
  Py.lower a = Py.lower b ->
  forallb plain_char b = true -> forallb plain_char a = true.
Proof.
  revert b. induction a as [|c a IH]; intros [|d b] Heq; try done.
  injection Heq as Hc Hab. cbn [forallb]. rewrite !andb_true_iff.
  intros [Hd Hb]. split; [|by apply (IH b)].
  by rewrite <- lower_char_plain, Hc, lower_char_plain.
Qed.

Lemma plain_extension_same_case (a b : str) :
  Py.lower a = Py.lower b ->
  plain_extension b = true -> plain_extension a = true.
Proof.
  destruct a as [|a0 [|a1 a]], b as [|b0 [|b1 b]]; try done.
  intros Heq. injection Heq as H0 Hrest. unfold plain_extension.
  rewrite !andb_true_iff. intros [Hb0 Hb]. split.
  - rewrite <- lower_char_dot, H0, lower_char_dot. exact Hb0.
  - apply (plain_chars_same_case _ (b1 :: b)); [|exact Hb].
    unfold Py.lower. cbn [map]. by f_equal.
Qed.

Lemma plain_char_facts c :
  plain_char c = true ->
  c <> PosixPath.extsep /\ Py.isspace c = false /\ forbidden c = false
  /\ dot_or_space c = false.
Proof.
  unfold plain_char. rewrite !andb_true_iff, !negb_true_iff.
  intros [[Hd Hs] Hf]. repeat split; try done.
  - intros ->. done.
  - unfold dot_or_space. rewrite Hd. cbn.
    destruct (Ascii.eqb_spec c " "%char) as [-> | ]; done.
Qed.

Lemma plain_extension_shape x :
  plain_extension x = true ->
  exists e0 c,
    x = PosixPath.extsep :: e0 ++ [c]
    /\ Forall (fun a => plain_char a = true) (e0 ++ [c]).
Proof.
  destruct x as [|d [|a e]]; try done. unfold plain_extension.
  rewrite andb_true_iff. intros [Hd He]. apply Ascii.eqb_eq in Hd. subst d.
  assert (a :: e <> []) as Hne by done.
  apply exists_last in Hne as (e0 & c & Heq). exists e0, c.
  rewrite <- Heq. split; [done|]. apply List.Forall_forall.
  by apply forallb_forall.
Qed.

End Reconciliation.

(** C6: with [bn] the trimmed suggestion, reconciliation returns
    [renamed_file] followed by the extension when [bn] is empty; otherwise
    it appends the extension exactly when the extension is non-empty and
    [bn] does not already end with it up to letter case, and returns [bn]
    unchanged in the other cases. *)
Theorem ensure_extension_reconciles (raw ext : str) :
  let bn := Py.strip raw in
  (bn = [] -> ensure_extension raw ext = py "renamed_file" ++ ext)
  /\ (bn <> [] -> ext <> [] -> ~ ends_with_ci bn ext ->
      ensure_extension raw ext = bn ++ ext)
  /\ (bn <> [] -> ext = [] \/ ends_with_ci bn ext ->
      ensure_extension raw ext = bn)
  /\ ensure_extension (py "report") (py ".pdf") = py "report.pdf"
  /\ ensure_extension (py "Report.PDF") (py ".pdf") = py "Report.PDF"
  /\ ensure_extension [] (py ".txt") = py "renamed_file.txt".
Proof.
  intros bn. split; [|split; [|split; [|by repeat split]]].
  - intros Hbn. rewrite ensure_extension_cases. fold bn. by rewrite Hbn.
  - apply ensure_extension_appends.
  - apply ensure_extension_keeps.
Qed.

Lemma ensure_extension_reconciles_witness :
  ensure_extension (py "  budget ") (py ".xlsx") = py "budget.xlsx"
  /\ ensure_extension (py "Budget.XLSX ") (py ".xlsx") = py "Budget.XLSX".
Proof.
  split.
  - apply (proj1 (proj2 (ensure_extension_reconciles (py "  budget ") (py ".xlsx")))).
    + vm_compute. discriminate.
    + discriminate.
    + intros Hends. apply endswith_lower in Hends. vm_compute in Hends.
      discriminate.
  - apply (proj1 (proj2 (proj2
             (ensure_extension_reconciles (py "Budget.XLSX ") (py ".xlsx"))))).
    + vm_compute. discriminate.
    + right. apply endswith_lower. reflexivity.
Defined.

(** ** The normalised name *)

Section Normalised.

Implicit Types (s x pre : str) (c : ascii).

(** Collapsing whitespace keeps a word at the end of the string. *)
Lemma collapse_keeps_tail cur p x :
  x <> [] -> Forall (fun c => Py.isspace c = false) x ->
  exists q, Py.join (py " ") (Py.split_from cur (p ++ x)) = q ++ x.
Proof.
  intros Hne Hx. revert cur. induction p as [|c p IH]; intros cur.
  - replace ([] ++ x) with (x ++ []) by (by rewrite app_nil_r).
    rewrite (split_from_word _ _ _ Hx). cbn [Py.split_from].
    destruct (rev x ++ cur) eqn:Hr.
    + apply app_eq_nil in Hr as [Hr _]. exfalso. apply Hne.
      by rewrite <- (rev_involutive x), Hr.
    + rewrite <- Hr, rev_app_distr, rev_involutive. by exists (rev cur).
  - cbn [app Py.split_from]. destruct (Py.isspace c); [|apply IH].
    destruct cur as [|a cur]; [apply IH|].
    destruct (IH []) as (q & Hq). rewrite join_cons, Hq.
    destruct (Py.split_from [] (p ++ x)).
    + cbn in Hq. symmetry in Hq. apply app_eq_nil in Hq as [_ ?]. done.
    + exists (rev (a :: cur) ++ py " " ++ q). by rewrite <- !app_assoc.
Qed.

(** A plain extension at the end of a name survives cleaning. *)
Lemma clean_filename_keeps_plain_extension pre x :
  plain_extension x = true ->
  (exists q, clean_filename (pre ++ x) = q ++ x)
  /\ Forall (fun c => forbidden c = false) (clean_filename (pre ++ x)).
Proof.
  intros Hx. destruct (plain_extension_shape x Hx) as (e0 & c & -> & Hplain).
  assert (PosixPath.extsep ∉ e0 ++ [c]) as Hnodot.
  { intros Hin. pose proof (proj1 (Forall_forall _ _) Hplain _ Hin) as Hp.
    by apply plain_char_facts in Hp as [? _]. }
  assert (Forall (fun a => forbidden a = false) (PosixPath.extsep :: e0 ++ [c]))
    as Hallowed.
  { constructor; [done|]. eapply Forall_impl; [exact Hplain|].
    intros a Ha. by apply plain_char_facts in Ha as (_ & _ & ? & _). }
  rewrite clean_filename_unfold.
  destruct (splitext_at_last_dot pre (e0 ++ [c]) Hnodot) as [-> | ->];
    cbn [fst snd].
  - split; [by eexists|]. apply Forall_app. split; [|done].
    apply cleaned_base_allowed.
  - rewrite app_nil_r. split; [|apply cleaned_base_allowed].
    unfold cleaned_base, sanitize. rewrite List.filter_app.
    rewrite (forallb_filter_id _ (PosixPath.extsep :: e0 ++ [c])).
    2:{ apply forallb_forall. intros a Ha.
        by rewrite (proj1 (List.Forall_forall _ _) Hallowed a Ha). }
    unfold Py.split.
    destruct (collapse_keeps_tail [] (List.filter (fun a => negb (forbidden a)) pre)
                (PosixPath.extsep :: e0 ++ [c])) as (q & ->); [done| |].
    { constructor; [done|]. eapply Forall_impl; [exact Hplain|].
      intros a Ha. by apply plain_char_facts in Ha as (_ & ? & _). }
    assert (dot_or_space c = false) as Hc.
    { apply Forall_app in Hplain as [_ Hc]. apply Forall_cons in Hc as [Hc _].
      by apply plain_char_facts in Hc as (_ & _ & _ & ?). }
    replace (q ++ PosixPath.extsep :: e0 ++ [c])
      with ((q ++ PosixPath.extsep :: e0) ++ [c])
      by by rewrite <- app_assoc.
    rewrite (rstrip_keeps_last _ _ _ Hc).
    destruct ((q ++ PosixPath.extsep :: e0) ++ [c]) eqn:Hq.
    + by apply app_eq_nil in Hq as [_ ?].
    + exists q. rewrite <- Hq. by rewrite <- app_assoc.
Qed.

End Normalised.

(** C3, as stated, fails.  A suggestion that already repeats the
    extension keeps both copies; and an extension with a reserved
    character, which a file name may have, is not kept when the suggestion
    is a lone dot. *)
Lemma normalized_name_may_repeat_or_lose_extension :
  (normalize (py "a.pdf.pdf") (py ".pdf") = py "a.pdf.pdf"
   /\ carries_extension_once (normalize (py "a.pdf.pdf") (py ".pdf")) (py ".pdf")
      = false)
  /\ (PosixPath.suffix (py "x.a:b") = py ".a:b"
      /\ normalize (py ".") (py ".a:b") = py "..ab"
      /\ Py.endswith (Py.lower (normalize (py ".") (py ".a:b")))
           (Py.lower (py ".a:b")) = false).
Proof. repeat split. Qed.

(** C3, amended: for every raw suggestion and every plain original
    extension (a dot followed by one or more characters that are not dots,
    whitespace or reserved characters), the normalised name is non-empty,
    ends with the original extension up to letter case, and contains no
    reserved character, in its base name in particular; reconciliation
    leaves a trimmed suggestion that already ends with the extension as it
    is. *)
Theorem normalized_name_keeps_plain_extension (raw ext : str) :
  plain_extension ext = true ->
  let name := normalize raw ext in
  name <> []
  /\ Py.endswith (Py.lower name) (Py.lower ext) = true
  /\ Forall (fun c => forbidden c = false) (fst (PosixPath.splitext name))
  /\ Forall (fun c => forbidden c = false) name
  /\ (Py.strip raw <> [] ->
      Py.endswith (Py.lower (Py.strip raw)) (Py.lower ext) = true ->
      ensure_extension raw ext = Py.strip raw).
Proof.
  intros Hext name.
  assert (ext <> []) as Hne by by destruct ext.
  destruct (ensure_extension_ends raw ext Hne) as [_ (pre & suf & Hr & Hcase)].
  pose proof (plain_extension_same_case _ _ Hcase Hext) as Hsuf.
  destruct (clean_filename_keeps_plain_extension pre suf Hsuf) as [[q Hq] Hall].
  unfold name, normalize. rewrite Hr.
  split; [|split; [|split; [|split]]].
  - rewrite Hq. destruct suf; [done|]. by destruct q.
  - apply endswith_lower. by exists q, suf.
  - rewrite <- (splitext_concat (clean_filename (pre ++ suf))) in Hall.
    by apply Forall_app in Hall as [? _].
  - exact Hall.
  - intros Hbn Hends.
    rewrite <- Hr. apply ensure_extension_keeps; [done|]. right.
    by apply endswith_lower.
Qed.

Lemma normalized_name_keeps_plain_extension_witness :
  normalize (py " Q3: Budget/Review ") (py ".pdf") = py "Q3 BudgetReview.pdf"
  /\ Py.endswith (Py.lower (normalize (py " Q3: Budget/Review ") (py ".pdf")))
       (Py.lower (py ".pdf")) = true.
Proof.
  split; [reflexivity|].
  apply (proj1 (proj2 (normalized_name_keeps_plain_extension
                         (py " Q3: Budget/Review ") (py ".pdf") eq_refl))).
Defined.

(** ** Cleaning twice *)

Section CleaningTwice.

Implicit Types (s x pre : str) (c : ascii).

Lemma slice_prefix pre x :
  Py.slice (pre ++ x) (-1 + 1) (Z.of_nat (length pre)) = pre.
Proof.
  unfold Py.slice. replace (-1 + 1) with 0 by lia.
  rewrite Z.sub_0_r, Nat2Z.id. change (Z.to_nat 0) with 0%nat.
  by rewrite drop_0, take_app_length.
Qed.

(** [splitext] on a name without separator: a name part with a
    character that is not a dot is split from the extension. *)
Lemma splitext_intro pre e :
  (PosixPath.sep ∉ pre) -> (PosixPath.sep ∉ e) -> (PosixPath.extsep ∉ e) ->
  (exists c, c ∈ pre /\ c <> PosixPath.extsep) ->
  PosixPath.splitext (pre ++ PosixPath.extsep :: e)
  = (pre, PosixPath.extsep :: e).
Proof.
  intros Hpre He Hdot (c & Hc & Hne). unfold PosixPath.splitext.
  rewrite (rfind_last_occurrence _ _ _ Hdot).
  rewrite (rfind_absent PosixPath.sep).
  2:{ intros [Hin | Hin]%elem_of_app; [done|].
      by apply elem_of_cons in Hin as [? | ?]. }
  rewrite slice_prefix, Nat2Z.id, take_app_length, drop_app_length.
  assert (existsb (fun a => negb (Ascii.eqb a PosixPath.extsep)) pre = true)
    as ->.
  { apply existsb_exists. exists c. split; [by apply list_elem_of_In|].
    apply negb_true_iff. by apply Ascii.eqb_neq. }
  by destruct (Z.ltb_spec (-1) (Z.of_nat (length pre))); [|lia].
Qed.

Lemma dots_first_splitext s :
  (PosixPath.sep ∉ s) -> dots_first s -> PosixPath.splitext s = (s, []).
Proof.
  intros Hsep (d & r & -> & Hd & Hr). unfold PosixPath.splitext.
  rewrite (rfind_absent PosixPath.sep _ Hsep).
  destruct d as [|d0 d _] using rev_ind.
  - cbn [app]. by rewrite (rfind_absent _ _ Hr).
  - apply Forall_app in Hd as [Hd Hlast].
    apply Forall_cons in Hlast as [-> _]. rewrite <- app_assoc. cbn [app].
    rewrite (rfind_last_occurrence _ _ _ Hr), slice_prefix.
    assert (existsb (fun a => negb (Ascii.eqb a PosixPath.extsep)) d = false)
      as ->; [|by rewrite andb_false_r].
    apply not_true_is_false. intros (a & Ha & Hneg)%existsb_exists.
    apply list_elem_of_In in Ha.
    rewrite (proj1 (Forall_forall _ _) Hd a Ha) in Hneg. done.
Qed.

Lemma splitext_no_extension s :
  (PosixPath.sep ∉ s) -> snd (PosixPath.splitext s) = [] -> dots_first s.
Proof.
  intros Hsep. unfold PosixPath.splitext.
  rewrite (rfind_absent PosixPath.sep _ Hsep).
  destruct (Z.le_gt_cases 0 (Py.rfind PosixPath.extsep s)) as [Hpos | Hneg].
  - destruct (rfind_decompose _ _ Hpos) as (pre & post & -> & Hpost & ->).
    rewrite slice_prefix, Nat2Z.id, take_app_length, drop_app_length.
    destruct (Z.ltb_spec (-1) (Z.of_nat (length pre))); [|lia]. cbn [andb].
    destruct (existsb _ pre) eqn:Hex; [done|]. intros _.
    exists (pre ++ [PosixPath.extsep]), post. rewrite <- app_assoc.
    split; [done|]. split; [|done]. apply Forall_app. split; [|by constructor].
    apply Forall_forall. intros a Ha.
    destruct (Ascii.eqb_spec a PosixPath.extsep) as [-> | Hne]; [done|].
    assert (existsb (fun a => negb (Ascii.eqb a PosixPath.extsep)) pre = true)
      as Hcontra; [|congruence].
    apply existsb_exists. exists a. split; [by apply list_elem_of_In|].
    apply negb_true_iff. by apply Ascii.eqb_neq.
  - intros _. exists [], s. split; [done|]. split; [constructor|].
    intros Hin. apply rfind_present in Hin. lia.
Qed.

(** *** The dots stay first *)

Lemma dots_are_kept (d : str) :
  Forall (fun c => c = PosixPath.extsep) d ->
  List.filter (fun c => negb (forbidden c)) d = d
  /\ Forall (fun c => Py.isspace c = false) d.
Proof.
  induction 1 as [|c d -> Hd [IH1 IH2]]; [done|]. split.
  - cbn [List.filter]. change (negb (forbidden PosixPath.extsep)) with true.
    cbn iota. by rewrite IH1.
  - by constructor.
Qed.

(** The word being read stays at the head of the collapsed string. *)
Lemma collapse_keeps_head cur r :
  cur <> [] ->
  exists y, Py.join (py " ") (Py.split_from cur r) = rev cur ++ y
            /\ forall c, c ∈ y -> c = " "%char \/ c ∈ r.
Proof.
  revert cur. induction r as [|a r IH]; intros cur Hcur.
  - exists []. cbn [Py.split_from]. destruct cur; [done|].
    split; [by rewrite app_nil_r | by intros ? ?%elem_of_nil].
  - cbn [Py.split_from]. destruct (Py.isspace a).
    + destruct cur as [|b cur]; [done|]. rewrite join_cons.
      eexists. split; [reflexivity|]. intros c Hc.
      destruct (Py.split_from [] r) eqn:Hs; [by apply elem_of_nil in Hc|].
      rewrite <- Hs in Hc. apply elem_of_cons in Hc as [-> | Hc]; [by left|].
      apply collapse_elem in Hc as [-> | Hc]; [by left|].
      right. by right.
    + destruct (IH (a :: cur)) as (y & -> & Hy); [done|].
      exists (a :: y). cbn [rev]. rewrite <- app_assoc. split; [done|].
      intros c [-> | Hc]%elem_of_cons; [right; by left|].
      destruct (Hy c Hc) as [-> | ?]; [by left|]. right. by right.
Qed.

Lemma dots_first_collapse s :
  dots_first s -> dots_first (Py.join (py " ") (Py.split s)).
Proof.
  intros (d & r & -> & Hd & Hr). destruct d as [|d0 d].
  - exists [], (Py.join (py " ") (Py.split r)). split; [done|].
    split; [constructor|].
    intros [Heq | Hin]%collapse_elem; [done|]. by apply Hr.
  - unfold Py.split.
    rewrite (split_from_word _ _ _ (proj2 (dots_are_kept _ Hd))), app_nil_r.
    destruct (collapse_keeps_head (rev (d0 :: d)) r) as (y & -> & Hy).
    { intros Hrev. apply (f_equal (@length ascii)) in Hrev.
      by rewrite length_rev in Hrev. }
    rewrite rev_involutive. exists (d0 :: d), y. split; [done|].
    split; [done|]. intros [Heq | Hin]%Hy; [done|]. by apply Hr.
Qed.

Lemma dots_first_filter s :
  dots_first s -> dots_first (List.filter (fun c => negb (forbidden c)) s).
Proof.
  intros (d & r & -> & Hd & Hr). rewrite List.filter_app.
  rewrite (proj1 (dots_are_kept _ Hd)).
  exists d, (List.filter (fun c => negb (forbidden c)) r).
  split; [done|]. split; [done|]. intros Hin.
  apply list_elem_of_In, filter_In in Hin as [Hin _].
  by apply Hr, list_elem_of_In.
Qed.

Lemma dots_first_prefix a b : dots_first (a ++ b) -> dots_first a.
Proof.
  intros (d & r & Heq & Hd & Hr). revert a Heq.
  induction Hd as [|c d -> Hd IH]; intros a Heq.
  - exists [], a. split; [done|]. split; [constructor|].
    intros Hin. apply Hr. cbn [app] in Heq. rewrite <- Heq.
    apply elem_of_app. by left.
  - destruct a as [|a0 a].
    + exists [], []. split; [done|]. split; [constructor|].
      by intros ?%elem_of_nil.
    + injection Heq as -> Heq. destruct (IH a Heq) as (d' & r' & -> & Hd' & Hr').
      exists (PosixPath.extsep :: d'), r'. split; [done|].
      split; [by constructor|done].
Qed.

Lemma dots_first_cleaned_base s : dots_first s -> dots_first (cleaned_base s).
Proof.
  intros Hs. unfold cleaned_base. destruct (sanitize s) eqn:Hsan.
  - exists [], renamed_file. split; [done|]. split; [constructor|].
    vm_compute. intros Hin. repeat (apply elem_of_cons in Hin as [?|Hin]; [done|]).
    by apply elem_of_nil in Hin.
  - rewrite <- Hsan. unfold sanitize.
    destruct (rstrip_decompose dot_or_space
                (Py.join (py " ")
                   (Py.split (List.filter (fun c => negb (forbidden c)) s))))
      as (t & Heq & _).
    apply (dots_first_prefix _ t). rewrite <- Heq.
    by apply dots_first_collapse, dots_first_filter.
Qed.

Lemma cleaned_base_no_sep name : PosixPath.sep ∉ cleaned_base name.
Proof.
  intros Hin.
  by pose proof (proj1 (Forall_forall _ _) (cleaned_base_allowed name) _ Hin).
Qed.

Lemma cleaned_base_has_letter name :
  exists c, c ∈ cleaned_base name /\ c <> PosixPath.extsep.
Proof.
  pose proof (cleaned_base_nonempty name) as Hne.
  apply exists_last in Hne as (b & c & Heq). exists c. split.
  - rewrite Heq. apply elem_of_app. right. by left.
  - apply cleaned_base_last in Heq. by intros ->.
Qed.

(** A cleaned name with an extension is split again at the same place. *)
Lemma clean_filename_fixed_with_extension pre e :
  (PosixPath.sep ∉ e) -> (PosixPath.extsep ∉ e) ->
  clean_filename (cleaned_base pre ++ PosixPath.extsep :: e)
  = cleaned_base pre ++ PosixPath.extsep :: e.
Proof.
  intros He Hdot. rewrite clean_filename_unfold.
  rewrite (splitext_intro _ _ (cleaned_base_no_sep pre) He Hdot
             (cleaned_base_has_letter pre)).
  cbn [fst snd]. by rewrite cleaned_base_idempotent.
Qed.

End CleaningTwice.

(** C10, as stated, fails: with a separator after the last dot the whole
    string is the name part, and removing the separator exposes an
    extension that the second cleaning splits off. *)
Lemma clean_filename_not_idempotent :
  clean_filename (py "a .b/c") = py "a .bc"
  /\ clean_filename (py "a .bc") = py "a.bc"
  /\ clean_filename (clean_filename (py "a .b/c"))
     <> clean_filename (py "a .b/c").
Proof. repeat split. vm_compute. discriminate. Qed.

(** C10, amended: cleaning twice is cleaning once for every string that
    has no path separator, and for every string in which
    [os.path.splitext] finds an extension. *)
Theorem clean_filename_idempotent_without_separator (s : str) :
  (PosixPath.sep ∉ s) \/ snd (PosixPath.splitext s) <> [] ->
  clean_filename (clean_filename s) = clean_filename s.
Proof.
  intros Hcase. rewrite (clean_filename_unfold s).
  destruct (splitext_cases s) as [Hnone | (pre & e & -> & Hdot & Hsep & ->)].
  - rewrite Hnone in *. cbn [fst snd] in *. rewrite app_nil_r.
    destruct Hcase as [Hsep | ?]; [|done].
    assert (dots_first s) as Hs.
    { apply splitext_no_extension; [done|]. by rewrite Hnone. }
    rewrite clean_filename_unfold.
    rewrite (dots_first_splitext _ (cleaned_base_no_sep s)
               (dots_first_cleaned_base _ Hs)).
    cbn [fst snd]. by rewrite app_nil_r, cleaned_base_idempotent.
  - cbn [fst snd]. by apply clean_filename_fixed_with_extension.
Qed.

Lemma clean_filename_idempotent_without_separator_witness :
  clean_filename (clean_filename (py " a: b ..txt"))
  = clean_filename (py " a: b ..txt")
  /\ clean_filename (clean_filename (py "x/y:z .md"))
     = clean_filename (py "x/y:z .md").
Proof.
  split.
  - apply clean_filename_idempotent_without_separator. left.
    vm_compute. intros Hin.
    repeat (apply elem_of_cons in Hin as [Hin | Hin]; [discriminate Hin|]).
    by apply elem_of_nil in Hin.
  - apply clean_filename_idempotent_without_separator. right.
    vm_compute. discriminate.
Defined.

(** ** Further properties of the image preview *)

Section PreviewSize.

Lemma resized_size_cases (w h : Z) :
  (w <= max_dimension /\ h <= max_dimension /\ resized_size (w, h) = (w, h))
  \/ (max_dimension < w /\ h < w
      /\ resized_size (w, h) = (max_dimension, Z.quot (h * max_dimension) w))
  \/ (max_dimension < h /\ w <= h
      /\ resized_size (w, h) = (Z.quot (w * max_dimension) h, max_dimension)).
Proof.
  unfold resized_size, max_dimension.
  destruct (Z.ltb_spec 1024 w), (Z.ltb_spec 1024 h), (Z.ltb_spec h w);
    cbn [orb];
    first [ left; split; [lia|split; [lia|reflexivity]]
          | right; left; split; [lia|split; [lia|reflexivity]]
          | right; right; split; [lia|split; [lia|reflexivity]] ].
Qed.

Lemma quot_scaled_nonneg (a b : Z) :
  0 <= a -> 0 < b -> 0 <= Z.quot (a * max_dimension) b.
Proof. intros Ha Hb. apply Z.quot_pos; unfold max_dimension; lia. Qed.

Lemma quot_scaled_shrinks (a b : Z) :
  0 <= a -> max_dimension <= b -> Z.quot (a * max_dimension) b <= a.
Proof.
  unfold max_dimension. intros Ha Hb.
  rewrite Z.quot_div_nonneg by lia.
  apply Z.div_le_upper_bound; nia.
Qed.

Lemma quot_scaled_positive (a b : Z) :
  0 <= a -> 0 < b -> (0 < Z.quot (a * max_dimension) b <-> b <= max_dimension * a).
Proof.
  unfold max_dimension. intros Ha Hb. rewrite Z.quot_div_nonneg by lia.
  pose proof (Z.div_mod (a * 1024) b ltac:(lia)) as Hdm.
  pose proof (Z.mod_pos_bound (a * 1024) b Hb) as Hm.
  split; intros H; nia.
Qed.

End PreviewSize.

(** X1: for an image with non-negative sides, the size the builder
    computes is never larger than the original in either direction, and
    neither side exceeds 1024. *)
Theorem resized_size_never_enlarges (w h : Z) :
  0 <= w -> 0 <= h ->
  0 <= fst (resized_size (w, h)) <= Z.min w max_dimension
  /\ 0 <= snd (resized_size (w, h)) <= Z.min h max_dimension.
Proof.
  intros Hw Hh.
  destruct (resized_size_cases w h)
    as [(? & ? & ->) | [(Hbig & Hlt & ->) | (Hbig & Hle & ->)]]; cbn [fst snd].
  - lia.
  - pose proof (quot_scaled_nonneg h w Hh ltac:(unfold max_dimension in *; lia)).
    pose proof (quot_scaled_shrinks h w Hh ltac:(lia)).
    pose proof (quot_scaled_lt h w max_dimension
                  ltac:(unfold max_dimension in *; lia) ltac:(done) Hlt).
    unfold max_dimension in *. lia.
  - pose proof (quot_scaled_nonneg w h Hw ltac:(unfold max_dimension in *; lia)).
    pose proof (quot_scaled_shrinks w h Hw ltac:(lia)).
    pose proof (quot_scaled_le w h max_dimension
                  ltac:(unfold max_dimension in *; lia)
                  ltac:(unfold max_dimension; lia) Hle).
    unfold max_dimension in *. lia.
Qed.

Lemma resized_size_never_enlarges_witness :
  0 <= fst (resized_size (4000, 3000)) <= Z.min 4000 max_dimension
  /\ 0 <= snd (resized_size (4000, 3000)) <= Z.min 3000 max_dimension.
Proof. apply (resized_size_never_enlarges 4000 3000); lia. Defined.

(** X2: resizing is stable: the size computed for an already resized
    image is that size again. *)
Theorem resized_size_idempotent (sz : Z * Z) :
  resized_size (resized_size sz) = resized_size sz.
Proof.
  destruct sz as [w h].
  destruct (resized_size_cases w h)
    as [(? & ? & ->) | [(Hbig & Hlt & ->) | (Hbig & Hle & ->)]].
  - destruct (resized_size_cases w h) as [(_ & _ & ->) | [? | ?]]; [done|lia|lia].
  - pose proof (quot_scaled_lt h w max_dimension
                  ltac:(unfold max_dimension in *; lia) ltac:(done) Hlt) as Hq.
    destruct (resized_size_cases max_dimension (Z.quot (h * max_dimension) w))
      as [(_ & _ & ->) | [? | ?]]; [done|lia|lia].
  - pose proof (quot_scaled_le w h max_dimension
                  ltac:(unfold max_dimension in *; lia)
                  ltac:(unfold max_dimension; lia) Hle) as Hq.
    destruct (resized_size_cases (Z.quot (w * max_dimension) h) max_dimension)
      as [(_ & _ & ->) | [? | ?]]; [done|lia|lia].
Qed.

(** X3: when an image with positive sides is resized, both computed
    sides are positive exactly when the longer side is at most 1024 times
    the shorter one; a more elongated image gets a side of zero pixels. *)
Theorem resized_size_positive_iff (w h : Z) :
  0 < w -> 0 < h -> max_dimension < w \/ max_dimension < h ->
  (0 < fst (resized_size (w, h)) /\ 0 < snd (resized_size (w, h))
   <-> Z.max w h <= max_dimension * Z.min w h).
Proof.
  intros Hw Hh Hbig.
  destruct (resized_size_cases w h)
    as [(? & ? & _) | [(_ & Hlt & ->) | (_ & Hle & ->)]]; cbn [fst snd].
  - lia.
  - pose proof (quot_scaled_positive h w ltac:(lia) Hw) as Hq.
    rewrite Z.max_l, Z.min_r by lia. unfold max_dimension in *. split.
    + intros [_ H]. by apply Hq.
    + intros H. split; [lia|]. by apply Hq.
  - pose proof (quot_scaled_positive w h ltac:(lia) Hh) as Hq.
    rewrite Z.max_r, Z.min_l by lia. unfold max_dimension in *. split.
    + intros [H _]. by apply Hq.
    + intros H. split; [|lia]. by apply Hq.
Qed.

Lemma resized_size_positive_iff_witness :
  resized_size (5000, 4) = (1024, 0)
  /\ ~ (5000 <= max_dimension * 4).
Proof.
  split; [reflexivity|]. intros Hle.
  pose proof (proj2 (resized_size_positive_iff 5000 4 ltac:(lia) ltac:(lia)
                       ltac:(left; reflexivity))) as H.
  rewrite Z.max_l, Z.min_r in H by lia. destruct (H Hle) as [_ Hs].
  vm_compute in Hs. discriminate Hs.
Defined.

(** ** Further properties of the text preview and the classifier *)

Section TextPreview.

Lemma universal_newlines_no_cr_upto (n : nat) (s : str) :
  (length s <= n)%nat -> Py.chr 13 ∉ universal_newlines s.
Proof.
  revert s. induction n as [|n IH]; intros s Hlen Hin.
  - destruct s; [by apply elem_of_nil in Hin | simpl in Hlen; lia].
  - destruct s as [|c s']; [by apply elem_of_nil in Hin|].
    simpl in Hlen, Hin. destruct (Ascii.eqb c (Py.chr 13)) eqn:Hc.
    + destruct s' as [|d s''].
      * apply list_elem_of_singleton in Hin. vm_compute in Hin.
        discriminate Hin.
      * simpl in Hlen. destruct (Ascii.eqb d (Py.chr 10)).
        -- apply elem_of_cons in Hin as [Hin | Hin];
             [vm_compute in Hin; discriminate Hin|].
           apply (IH s''); [lia | exact Hin].
        -- apply elem_of_cons in Hin as [Hin | Hin];
             [vm_compute in Hin; discriminate Hin|].
           apply (IH (d :: s'')); [simpl; lia | exact Hin].
    + apply elem_of_cons in Hin as [Hin | Hin].
      * subst c. by rewrite Ascii.eqb_refl in Hc.
      * apply (IH s'); [lia | exact Hin].
Qed.

Lemma universal_newlines_no_cr (s : str) : Py.chr 13 ∉ universal_newlines s.
Proof. by apply (universal_newlines_no_cr_upto (length s)). Qed.

Lemma universal_newlines_length_upto (n : nat) (s : str) :
  (length s <= n)%nat -> (length (universal_newlines s) <= length s)%nat.
Proof.
  revert s. induction n as [|n IH]; intros s Hlen.
  - destruct s; [done | simpl in Hlen; lia].
  - destruct s as [|c s']; [done|]. simpl in Hlen. simpl.
    destruct (Ascii.eqb c (Py.chr 13)).
    + destruct s' as [|d s'']; [simpl; lia|]. simpl in Hlen.
      destruct (Ascii.eqb d (Py.chr 10)); simpl.
      * specialize (IH s'' ltac:(lia)). lia.
      * specialize (IH (d :: s'') ltac:(simpl; lia)). simpl in IH. lia.
    + simpl. specialize (IH s' ltac:(lia)). lia.
Qed.

Lemma universal_newlines_length (s : str) :
  (length (universal_newlines s) <= length s)%nat.
Proof. by apply (universal_newlines_length_upto (length s)). Qed.

Lemma first_2000_take (content : str) : first_2000 content = take 2000 content.
Proof.
  unfold first_2000. destruct (Z.ltb_spec 2000 (Z.of_nat (length content))).
  - reflexivity.
  - symmetry. apply take_ge. lia.
Qed.

End TextPreview.

(** X4: the text preview of a file that opens is the beginning of its
    content as text mode reads it: decoded (UTF-8, or Latin-1 when UTF-8
    decoding fails) and with [\r\n] and [\r] turned into [\n].  The
    preview has at most 2000 characters and no carriage return; it is the
    whole translated content when that has at most 2000 characters, and
    exactly its first 2000 characters otherwise.  When the file does not
    open, the preview is a placeholder that quotes the error; when the
    second opening fails, it is the fixed placeholder. *)
Theorem read_text_file_previews_translated_content
  (decode_utf8 : str -> option str) (data e : str) (again : read_result) :
  let decoded := default data (decode_utf8 data) in
  let content := universal_newlines decoded in
  let preview := read_text_file decode_utf8 (file_bytes data) (file_bytes data) in
  ((length preview <= 2000)%nat
   /\ (exists rest, content = preview ++ rest)
   /\ ((length content <= 2000)%nat -> preview = content)
   /\ ((2000 < length content)%nat -> length preview = 2000%nat)
   /\ (Py.chr 13 ∉ preview)
   /\ (length content <= length decoded)%nat)
  /\ read_text_file decode_utf8 (os_error e) again
     = py "[Error reading file: " ++ e ++ py "]"
  /\ (decode_utf8 data = None ->
      read_text_file decode_utf8 (file_bytes data) (os_error e)
      = py "[Could not read file content - encoding issue]").
Proof.
  intros decoded content preview.
  assert (preview = take 2000 content) as Hp.
  { unfold preview, content, decoded, read_text_file.
    destruct (decode_utf8 data); apply first_2000_take. }
  split; [|split].
  - rewrite Hp. split; [rewrite length_take; lia|]. split; [|split; [|split; [|split]]].
    + exists (drop 2000 content). by rewrite take_drop.
    + intros Hlen. by apply take_ge.
    + intros Hlen. rewrite length_take. lia.
    + intros Hin. apply (universal_newlines_no_cr decoded).
      fold content. rewrite <- (take_drop 2000 content).
      apply elem_of_app. by left.
    + apply universal_newlines_length.
  - reflexivity.
  - intros Hnone. unfold read_text_file. by rewrite Hnone.
Qed.

Lemma read_text_file_previews_translated_content_witness :
  read_text_file (fun _ => None)
    (file_bytes (py "a" ++ [Py.chr 13; Py.chr 10] ++ py "b"))
    (os_error (py "gone"))
  = py "[Could not read file content - encoding issue]".
Proof.
  apply (proj2 (proj2 (read_text_file_previews_translated_content
           (fun _ => None) (py "a" ++ [Py.chr 13; Py.chr 10] ++ py "b")
           (py "gone") (file_bytes [])))).
  reflexivity.
Defined.

(** Of 2001 decoded characters, 1000 pairs [\r\n] and a letter, the
    preview keeps 1001. *)
Example read_text_file_counts_translated_characters :
  let data :=
    concat (replicate 1000 [Py.chr 13; Py.chr 10]) ++ py "x" in
  length data = 2001%nat
  /\ length (read_text_file Some (file_bytes data) (file_bytes data))
     = 1001%nat.
Proof. vm_compute. split; reflexivity. Qed.

(** The preview of the bytes [a\r\nb] is [a\nb]. *)
Example read_text_file_translates_newlines :
  read_text_file Some
    (file_bytes (py "a" ++ [Py.chr 13; Py.chr 10] ++ py "b"))
    (file_bytes (py "a" ++ [Py.chr 13; Py.chr 10] ++ py "b"))
  = py "a" ++ [Py.chr 10] ++ py "b".
Proof. reflexivity. Qed.

Section ClassifierRange.

Lemma table_category_range (extension : str) (c : category) :
  table_category extension = Some c ->
  c <> binary_cat
  /\ exists table,
       (table, c) ∈ extension_tables /\ Py.contains table extension = true.
Proof.
  unfold table_category, extension_tables. cbn [List.find fst snd].
  destruct (Py.contains IMAGE_EXTENSIONS extension) eqn:H1;
    [intros [= <-]; split; [done|]; exists IMAGE_EXTENSIONS; split;
       [set_solver | done]|].
  destruct (Py.contains TEXT_EXTENSIONS extension) eqn:H2;
    [intros [= <-]; split; [done|]; exists TEXT_EXTENSIONS; split;
       [set_solver | done]|].
  destruct (Py.contains PDF_EXTENSIONS extension) eqn:H3;
    [intros [= <-]; split; [done|]; exists PDF_EXTENSIONS; split;
       [set_solver | done]|].
  destruct (Py.contains DOCUMENT_EXTENSIONS extension) eqn:H4;
    [intros [= <-]; split; [done|]; exists DOCUMENT_EXTENSIONS; split;
       [set_solver | done]|].
  destruct (Py.contains SPREADSHEET_EXTENSIONS extension) eqn:H5;
    [intros [= <-]; split; [done|]; exists SPREADSHEET_EXTENSIONS; split;
       [set_solver | done]|].
  destruct (Py.contains PRESENTATION_EXTENSIONS extension) eqn:H6;
    [intros [= <-]; split; [done|]; exists PRESENTATION_EXTENSIONS; split;
       [set_solver | done]|].
  done.
Qed.

Lemma mime_category_range (mime : str) (c : category) :
  mime_category mime = Some c -> c = image_cat \/ c = text_cat \/ c = pdf_cat.
Proof.
  unfold mime_category.
  destruct (Py.startswith mime (py "image/")); [intros [= <-]; auto|].
  destruct (_ || _); [intros [= <-]; auto|].
  destruct (Py.eqb _ _); [intros [= <-]; auto | done].
Qed.

End ClassifierRange.

(** X5: the classifier answers binary exactly when no extension table
    holds the lowercased extension and no MIME test matches. *)
Theorem binary_iff_nothing_matches (file_path mime : str) :
  get_file_category file_path mime = binary_cat
  <-> table_category (Py.lower (PosixPath.suffix file_path)) = None
      /\ mime_category mime = None.
Proof.
  rewrite get_file_category_earliest.
  destruct (table_category _) as [a|] eqn:Ha, (mime_category mime) as [b|] eqn:Hb;
    cbn [earliest].
  - apply table_category_range in Ha as [Ha _].
    apply mime_category_range in Hb.
    split; [|by intros [? _]]. intros H. exfalso.
    destruct (precedence a <=? precedence b)%nat; [done|].
    subst b. destruct Hb as [? | [? | ?]]; done.
  - apply table_category_range in Ha as [Ha _]. split; [done | by intros [? _]].
  - apply mime_category_range in Hb. split; [|by intros [_ ?]].
    intros ->. destruct Hb as [? | [? | ?]]; done.
  - done.
Qed.

(** X6: the categories document, spreadsheet and presentation are decided
    by the extension alone: when the classifier answers one of them, the
    lowercased extension is in that category's table, and no earlier
    table holds it. *)
Theorem office_category_comes_from_extension (file_path mime : str) (c : category) :
  get_file_category file_path mime = c ->
  c = document_cat \/ c = spreadsheet_cat \/ c = presentation_cat ->
  table_category (Py.lower (PosixPath.suffix file_path)) = Some c.
Proof.
  rewrite get_file_category_earliest. intros Hc Hoffice.
  destruct (table_category _) as [a|] eqn:Ha, (mime_category mime) as [b|] eqn:Hb;
    cbn [earliest] in Hc.
  - apply mime_category_range in Hb.
    destruct (precedence a <=? precedence b)%nat; [by subst|].
    subst c. destruct Hb as [-> | [-> | ->]], Hoffice as [? | [? | ?]]; done.
  - by subst.
  - apply mime_category_range in Hb. subst c.
    destruct Hb as [-> | [-> | ->]], Hoffice as [? | [? | ?]]; done.
  - subst c. destruct Hoffice as [? | [? | ?]]; done.
Qed.

Lemma office_category_comes_from_extension_witness :
  table_category (Py.lower (PosixPath.suffix (py "Plan.XLSX")))
  = Some spreadsheet_cat.
Proof.
  apply (office_category_comes_from_extension (py "Plan.XLSX")
           (py "application/octet-stream") spreadsheet_cat eq_refl).
  right. left. reflexivity.
Defined.

(** ** Further properties of trimming, confirmation and reconciliation *)

Section Trimming.

Implicit Types (s : str) (c : ascii) (P : ascii -> bool).

Lemma lstrip_all P s :
  Forall (fun c => P c = true) s -> Py.lstrip P s = [].
Proof. induction 1 as [|c s Hc _ IH]; [done|]. cbn. by rewrite Hc. Qed.

Lemma lstrip_head P s c r : Py.lstrip P s = c :: r -> P c = false.
Proof.
  induction s as [|x s IH]; [done|]. cbn [Py.lstrip].
  destruct (P x) eqn:Hx; [done|]. by intros [= <- _].
Qed.

Lemma lstrip_nil P s :
  Py.lstrip P s = [] -> Forall (fun c => P c = true) s.
Proof.
  induction s as [|x s IH]; [done|]. cbn [Py.lstrip].
  destruct (P x) eqn:Hx; [|done]. intros H. constructor; [done | by apply IH].
Qed.

Lemma lstrip_fixed P s c r : s = c :: r -> P c = false -> Py.lstrip P s = s.
Proof. intros -> Hc. cbn. by rewrite Hc. Qed.

Lemma rstrip_head P s c r :
  Py.rstrip P s = c :: r -> exists r', s = c :: r'.
Proof.
  destruct s as [|x s]; [done|]. cbn [Py.rstrip].
  destruct (Py.rstrip P s); [destruct (P x); [done|]|];
    intros [= <- _]; by eexists.
Qed.

Lemma rstrip_all P s :
  Forall (fun c => P c = true) s -> Py.rstrip P s = [].
Proof.
  induction 1 as [|c s Hc _ IH]; [done|]. cbn [Py.rstrip]. by rewrite IH, Hc.
Qed.

(** A string is trimmed to nothing exactly when it is all whitespace. *)
Lemma strip_blank s :
  Py.strip s = [] <-> Forall (fun c => Py.isspace c = true) s.
Proof.
  unfold Py.strip. split.
  - intros H. apply lstrip_nil.
    destruct (Py.lstrip Py.isspace s) as [|c r] eqn:Hl; [done|].
    destruct (rstrip_decompose Py.isspace (c :: r)) as (t & Heq & Ht).
    rewrite H in Heq. cbn [app] in Heq. subst t.
    apply Forall_cons in Ht as [Hc _].
    apply lstrip_head in Hl. congruence.
  - intros H. by rewrite (lstrip_all _ _ H).
Qed.

(** A trimmed string that is not empty begins and ends with a character
    that is not whitespace. *)
Lemma strip_ends s :
  Py.strip s <> [] ->
  exists c r d, Py.strip s = c :: r /\ Py.isspace c = false
                /\ last (c :: r) = Some d /\ Py.isspace d = false.
Proof.
  intros Hne. destruct (Py.strip s) as [|c r] eqn:Hs; [done|].
  unfold Py.strip in Hs.
  destruct (rstrip_head _ _ _ _ Hs) as (r' & Hl).
  assert (c :: r <> []) as Hcr by done.
  apply exists_last in Hcr as (b & d & Hbd).
  exists c, r, d. split; [done|]. split; [by apply (lstrip_head _ _ _ _ Hl)|].
  rewrite Hbd. split; [by rewrite last_snoc|].
  rewrite Hbd in Hs. by apply rstrip_last in Hs.
Qed.

Lemma strip_fixed_ends s c r d :
  s = c :: r -> Py.isspace c = false ->
  last s = Some d -> Py.isspace d = false -> Py.strip s = s.
Proof.
  intros Hs Hc Hlast Hd. unfold Py.strip.
  rewrite (lstrip_fixed _ _ _ _ Hs Hc).
  apply last_Some in Hlast as (b & ->). by apply rstrip_keeps_last.
Qed.

Lemma strip_idempotent s : Py.strip (Py.strip s) = Py.strip s.
Proof.
  destruct (Py.strip s) as [|c r] eqn:Hs; [done|].
  destruct (strip_ends s) as (c' & r' & d & Heq & Hc & Hlast & Hd);
    [by rewrite Hs|].
  rewrite Hs in Heq. injection Heq as <- <-.
  by apply (strip_fixed_ends _ c r d).
Qed.

Lemma ensure_extension_nonempty raw ext : ensure_extension raw ext <> [].
Proof.
  rewrite ensure_extension_cases. destruct (Py.strip raw) as [|b bn]; [done|].
  cbv zeta. by destruct (_ && _).
Qed.

End Trimming.

(** X7: confirmation is given exactly when standard input is not a
    terminal, or the line typed at the prompt holds only whitespace; an
    interrupt declines. *)
Theorem confirmation_iff_blank_answer (input : stdin) (suggested_name : str) :
  fst (get_user_confirmation input suggested_name) = true
  <-> input = not_a_tty
      \/ exists line, input = answers line
                      /\ Forall (fun c => Py.isspace c = true) line.
Proof.
  destruct input as [|line|]; cbn [get_user_confirmation fst].
  - split; [by left | done].
  - unfold Py.eqb. rewrite bool_decide_eq_true, strip_blank. split.
    + intros H. right. by exists line.
    + intros [? | (l & [= <-] & H)]; done.
  - split; [done|]. intros [? | (l & ? & _)]; done.
Qed.

(** X8: the name a reply yields.  No name is obtained exactly when the
    gateway call raises, the reply has no text, or the text is all
    whitespace.  A name that is obtained is never empty, and it ends with
    the file's extension, up to letter case, when the extension is not
    empty. *)
Theorem suggestion_of_reply_result (r : reply) (file_extension : str) :
  (suggestion_of_reply r file_extension = None
   <-> r = raised \/ r = output_text None
       \/ exists text, r = output_text (Some text)
                       /\ Forall (fun c => Py.isspace c = true) text)
  /\ forall name,
       suggestion_of_reply r file_extension = Some name ->
       name <> []
       /\ (file_extension <> [] -> ends_with_ci name file_extension).
Proof.
  split.
  - destruct r as [|[text|]]; cbn [suggestion_of_reply].
    + split; [by left | done].
    + destruct (Py.strip text) eqn:Hs.
      * split; [|done]. intros _. right. right. exists text. split; [done|].
        by apply strip_blank.
      * split; [done|]. intros [? | [? | (t & [= <-] & Ht)]]; try done.
        apply strip_blank in Ht. congruence.
    + split; [by right; left | done].
  - intros name. destruct r as [|[text|]]; cbn [suggestion_of_reply]; try done.
    destruct (Py.strip text) eqn:Hs; [done|]. intros [= <-]. split.
    + apply ensure_extension_nonempty.
    + intros Hext. by apply ensure_extension_ends.
Qed.

Lemma suggestion_of_reply_result_witness :
  py "Q3 Minutes.txt" <> []
  /\ (py ".txt" <> [] -> ends_with_ci (py "Q3 Minutes.txt") (py ".txt")).
Proof.
  apply (proj2 (suggestion_of_reply_result
                  (output_text (Some (py " Q3 Minutes "))) (py ".txt"))).
  reflexivity.
Defined.

Lemma ensure_extension_twice (raw ext : str) (d : ascii) :
  ext = [] \/ (last ext = Some d /\ Py.isspace d = false) ->
  ensure_extension (ensure_extension raw ext) ext = ensure_extension raw ext.
Proof.
  intros Hext.
  assert (forall s, s <> [] -> Py.strip s = s ->
            ends_with_ci s ext \/ ext = [] ->
            ensure_extension s ext = s) as Hfix.
  { intros s Hs Hstrip Hends. rewrite <- Hstrip at 2.
    apply ensure_extension_keeps; [by rewrite Hstrip|].
    rewrite Hstrip. destruct Hends; auto. }
  assert (forall c r, Py.isspace c = false ->
            Py.strip ((c :: r) ++ ext) = (c :: r) ++ ext
            \/ (ext = [] /\ True)) as Htrim.
  { intros c r Hc. destruct Hext as [-> | [Hlast Hd]]; [by right|]. left.
    apply (strip_fixed_ends _ c (r ++ ext) d); try done.
    apply last_Some in Hlast as (b & ->). rewrite app_assoc.
    apply last_snoc. }
  rewrite (ensure_extension_cases raw ext).
  destruct (Py.strip raw) as [|b bn] eqn:Hbn.
  - destruct (Htrim "r"%char (py "enamed_file") eq_refl) as [Ht | [-> _]].
    + apply Hfix; [done | exact Ht |]. left. by exists renamed_file, ext.
    + rewrite app_nil_r. apply Hfix; [done | reflexivity | by right].
  - assert (Py.strip (b :: bn) = b :: bn) as Hfixed
      by (rewrite <- Hbn; apply strip_idempotent).
    destruct (strip_ends raw) as (c & r & e & Heq & Hc & _); [by rewrite Hbn|].
    rewrite Hbn in Heq. injection Heq as <- <-. cbv zeta.
    destruct (bool_decide (ext <> [])) eqn:Hne; cbn [andb].
    + destruct (Py.endswith (Py.lower (b :: bn)) (Py.lower ext)) eqn:He;
        cbn [negb].
      * apply Hfix; [done | done |]. left. by apply endswith_lower.
      * destruct (Htrim b bn Hc) as [Ht | [-> _]].
        -- apply Hfix; [done | exact Ht |]. left. by exists (b :: bn), ext.
        -- by apply bool_decide_eq_true in Hne.
    + apply bool_decide_eq_false in Hne. apply dec_stable in Hne. subst ext.
      apply Hfix; [done | done | by right].
Qed.

(** X9: reconciling a reconciled name again changes nothing, for every
    extension without trailing whitespace (the empty one included). *)
Theorem ensure_extension_idempotent (raw ext : str) :
  Py.rstrip Py.isspace ext = ext ->
  ensure_extension (ensure_extension raw ext) ext = ensure_extension raw ext.
Proof.
  intros Hext. destruct ext as [|x ext _] using rev_ind.
  - apply (ensure_extension_twice raw [] " "%char). by left.
  - apply (ensure_extension_twice raw _ x). right.
    split; [apply last_snoc | by apply rstrip_last in Hext].
Qed.

Lemma ensure_extension_idempotent_witness :
  ensure_extension (ensure_extension (py " Annual Report ") (py ".PDF")) (py ".PDF")
  = ensure_extension (py " Annual Report ") (py ".PDF").
Proof.
  apply ensure_extension_idempotent. reflexivity.
Defined.

(** ** Further properties of paths and of the cleaned name *)

Section PathFacts.

Implicit Types (s p w : str) (c : ascii).

Lemma split_on_pieces c s w : w ∈ Py.split_on c s -> c ∉ w.
Proof.
  revert w. induction s as [|x s IH]; intros w; cbn [Py.split_on].
  - intros ->%list_elem_of_singleton. by intros ?%elem_of_nil.
  - destruct (Ascii.eqb_spec x c) as [-> | Hne].
    + intros [-> | Hw]%elem_of_cons; [by intros ?%elem_of_nil | by apply IH].
    + destruct (Py.split_on c s) as [|v vs] eqn:Hs.
      * intros ->%list_elem_of_singleton.
        intros [? | ?%elem_of_nil]%elem_of_cons; done.
      * intros [-> | Hw]%elem_of_cons.
        -- intros [? | Hin]%elem_of_cons; [done|].
           by apply (IH v); [left|].
        -- apply IH. by right.
Qed.

Lemma split_on_whole c s : (c ∉ s) -> Py.split_on c s = [s].
Proof.
  induction s as [|x s IH]; [done|]. intros [Hx Hs]%not_elem_of_cons.
  cbn [Py.split_on]. destruct (Ascii.eqb_spec x c); [done|]. by rewrite (IH Hs).
Qed.

Lemma last_elem_of (l : list str) :
  l = [] \/ List.last l [] ∈ l.
Proof.
  induction l as [|a l IH]; [by left|]. right.
  destruct l as [|b l]; [by left|].
  destruct IH as [? | IH]; [done|]. right. exact IH.
Qed.

(** The name of a path is empty or a single component: not a dot, without
    separator. *)
Lemma name_component p :
  (PosixPath.sep ∉ PosixPath.name p) /\ PosixPath.name p <> [PosixPath.extsep].
Proof.
  unfold PosixPath.name. destruct (last_elem_of (PosixPath.parts p)) as [-> | Hin].
  - split; [by intros ?%elem_of_nil | done].
  - unfold PosixPath.parts in Hin at 2.
    apply list_elem_of_filter in Hin as [[_ Hdot] Hin].
    split; [by apply split_on_pieces in Hin | done].
Qed.

Lemma name_of_component s :
  (PosixPath.sep ∉ s) -> s <> [PosixPath.extsep] -> PosixPath.name s = s.
Proof.
  intros Hsep Hdot. unfold PosixPath.name, PosixPath.parts.
  rewrite (split_on_whole _ _ Hsep). destruct s as [|c s]; [done|].
  by rewrite filter_cons_True.
Qed.

End PathFacts.

(** X10: the classifier, which takes the extension of the path, and the
    suggestion functions, which take it from the file name, see the same
    extension: the name of a path is its own name, and has the suffix of
    the path. *)
Theorem suffix_of_name_is_suffix_of_path (p : str) :
  PosixPath.name (PosixPath.name p) = PosixPath.name p
  /\ PosixPath.suffix (PosixPath.name p) = PosixPath.suffix p.
Proof.
  assert (PosixPath.name (PosixPath.name p) = PosixPath.name p) as Hname.
  { apply name_of_component; apply name_component. }
  split; [done|]. unfold PosixPath.suffix. by rewrite Hname.
Qed.

Section CleanedName.

Lemma clean_filename_has_letter (filename : str) :
  exists c, c ∈ clean_filename filename /\ c <> PosixPath.extsep.
Proof.
  rewrite clean_filename_unfold.
  destruct (cleaned_base_has_letter (fst (PosixPath.splitext filename)))
    as (c & Hc & Hne).
  exists c. split; [|done]. apply elem_of_app. by left.
Qed.

Lemma clean_filename_no_sep (filename : str) :
  PosixPath.sep ∉ clean_filename filename.
Proof.
  rewrite clean_filename_unfold. intros [Hb | He]%elem_of_app.
  - by apply cleaned_base_no_sep in Hb.
  - destruct (splitext_cases filename) as [Hs | (pre & x & _ & _ & Hx & Hs)];
      rewrite Hs in He; cbn [snd] in He.
    + by apply elem_of_nil in He.
    + by apply elem_of_cons in He as [? | ?].
Qed.

End CleanedName.

(** X11: a cleaned name is an entry name: it is not empty, has no path
    separator, is neither [.] nor [..], and [pathlib] reads it as one
    component; joined to the folder it stays in the folder. *)
Theorem clean_filename_is_entry_name (filename : str) :
  clean_filename filename <> []
  /\ (PosixPath.sep ∉ clean_filename filename)
  /\ clean_filename filename <> py "."
  /\ clean_filename filename <> py ".."
  /\ PosixPath.name (clean_filename filename) = clean_filename filename.
Proof.
  destruct (clean_filename_has_letter filename) as (c & Hin & Hne).
  pose proof (clean_filename_no_sep filename) as Hsep.
  assert (clean_filename filename <> py ".") as Hdot.
  { intros Heq. rewrite Heq in Hin.
    by apply list_elem_of_singleton in Hin. }
  split; [|split; [done|split; [done|split]]].
  - intros Heq. rewrite Heq in Hin. by apply elem_of_nil in Hin.
  - intros Heq. rewrite Heq in Hin.
    apply elem_of_cons in Hin as [? | Hin]; [done|].
    by apply list_elem_of_singleton in Hin.
  - by apply name_of_component.
Qed.

(** ** Further properties of the orchestrator *)

Section Runs.

Variable Image_open : str -> option image.
Variable save_base64 : save_call -> str.
Variable b64encode : str -> str.
Variable decode_utf8 : str -> option str.
Variable gateway : list content_part -> reply.
Variable guess_type : str -> option str.

Let run :=
  rename_single_file Image_open save_base64 b64encode decode_utf8 gateway
    guess_type.
Let suggest :=
  suggest_filename Image_open save_base64 b64encode decode_utf8 gateway.
Let mime_of (file_path : str) :=
  or_else (guess_type file_path) (py "application/octet-stream").

Lemma suggestion_of_reply_reconciled r ext new :
  suggestion_of_reply r ext = Some new ->
  exists raw, new = ensure_extension raw ext.
Proof.
  destruct r as [|[text|]]; cbn [suggestion_of_reply]; try done.
  destruct (Py.strip text) eqn:Hs; [done|]. intros [= <-]. by eexists.
Qed.

(** Whatever the category, a suggestion is a reconciled name for the
    suffix of the current file name. *)
Lemma suggest_filename_reconciled data current_filename mime cat new :
  suggest data current_filename mime cat = Some new ->
  exists raw, new = ensure_extension raw (PosixPath.suffix current_filename).
Proof.
  unfold suggest, suggest_filename, suggest_image_filename,
    suggest_text_filename, text_suggestion, suggest_generic_filename.
  destruct cat; try apply suggestion_of_reply_reconciled.
  destruct (Image_open data) as [img|]; [|done].
  destruct (resize_raises (dimensions img)); [done|].
  apply suggestion_of_reply_reconciled.
Qed.

Lemma destination_cleaned file_name new target :
  destination file_name new = Some target ->
  target = clean_filename new /\ new <> file_name.
Proof.
  unfold destination, Py.eqb. destruct new; [done|].
  case_bool_decide; [done|]. by intros [= <-].
Qed.



(** X17: a suggestion is never the empty string, so the test of line 327
    only compares names: no destination is computed exactly when the
    reconciled name is the original name. *)
Theorem original_kept_iff_same_name data current_filename mime cat new :
  suggest data current_filename mime cat = Some new ->
  new <> []
  /\ (destination current_filename new = None <-> new = current_filename).
Proof.
  intros (raw & ->)%suggest_filename_reconciled.
  pose proof (ensure_extension_nonempty raw (PosixPath.suffix current_filename))
    as Hne.
  split; [done|]. unfold destination, Py.eqb.
  destruct (ensure_extension raw _) as [|c r]; [done|].
  case_bool_decide; split; done.
Qed.

End Runs.


Lemma original_kept_iff_same_name_witness :
  py "notes.txt" <> []
  /\ (destination (py "notes.txt") (py "notes.txt") = None
      <-> py "notes.txt" = py "notes.txt").
Proof.
  apply (original_kept_iff_same_name (fun _ => None) (fun _ => []) id Some
           (answering "notes") (py "Meeting minutes") (py "notes.txt")
           (py "text/plain") text_cat).
  reflexivity.
Defined.

(** ** Names that are already clean, and failed suggestions *)

Section AlreadyClean.

Implicit Types (s cur base e : str) (c : ascii).

(** On a single-spaced string, splitting into words and joining them with
    spaces gives the string back; [cur] is the word being read. *)
Lemma collapse_single_spaced cur s :
  single_spaced_from (bool_decide (cur = [])) s = true ->
  Py.join (py " ") (Py.split_from cur s) = rev cur ++ s.
Proof.
  revert cur. induction s as [|c s IH]; intros cur Hs.
  - cbn [single_spaced_from] in Hs. apply negb_true_iff in Hs.
    apply bool_decide_eq_false in Hs. cbn [Py.split_from].
    destruct cur; [done|]. by rewrite app_nil_r.
  - cbn [single_spaced_from Py.split_from] in *.
    destruct (Py.isspace c) eqn:Hc.
    + apply andb_true_iff in Hs as [[Heq Hcur]%andb_true_iff Hs].
      apply Ascii.eqb_eq in Heq. subst c. apply negb_true_iff in Hcur.
      apply bool_decide_eq_false in Hcur. destruct cur as [|a cur]; [done|].
      specialize (IH [] Hs). cbn [rev app] in IH.
      rewrite join_cons, IH. destruct (Py.split_from [] s); [|done].
      cbn in IH. subst s. done.
    + rewrite (IH (c :: cur)) by done. cbn [rev]. by rewrite <- app_assoc.
Qed.

Lemma single_spaced_last b pre c :
  single_spaced_from b (pre ++ [c]) = true -> Py.isspace c = false.
Proof.
  revert b. induction pre as [|x pre IH]; intros b; cbn [app single_spaced_from].
  - destruct (Py.isspace c); [|done]. rewrite andb_true_iff. by intros [_ ?].
  - destruct (Py.isspace x); [|apply IH].
    rewrite andb_true_iff. intros [_ H]. by apply (IH true).
Qed.

(** The sanitiser leaves a base alone when it has no reserved character,
    is single-spaced and does not end with a dot. *)
Lemma sanitize_fixed_point base :
  base <> [] ->
  Forall (fun c => forbidden c = false) base ->
  single_spaced base = true ->
  (forall pre c, base = pre ++ [c] -> c <> "."%char) ->
  sanitize base = base.
Proof.
  intros Hne Hallowed Hspaced Hlast. unfold sanitize.
  rewrite (forallb_filter_id _ base).
  2:{ apply forallb_forall. intros c Hc.
      by rewrite (proj1 (List.Forall_forall _ _) Hallowed c Hc). }
  assert (single_spaced_from true base = true) as Hfrom
    by by destruct base.
  unfold Py.split. rewrite (collapse_single_spaced [] base Hfrom). cbn [rev app].
  apply exists_last in Hne as (pre & c & ->). apply rstrip_keeps_last.
  unfold dot_or_space. apply orb_false_iff. split.
  - apply Ascii.eqb_neq. by apply (Hlast pre).
  - apply Ascii.eqb_neq. intros ->. by apply single_spaced_last in Hfrom.
Qed.

End AlreadyClean.

(** X18: a well-formed name passes through cleaning unchanged.  When the
    base is not empty, has no reserved character, is single-spaced and
    does not end with a dot, and the extension has no further dot and no
    separator, [clean_filename] returns base and extension as they are. *)
Theorem clean_filename_keeps_clean_name (base e : str) :
  base <> [] ->
  Forall (fun c => forbidden c = false) base ->
  single_spaced base = true ->
  (forall pre c, base = pre ++ [c] -> c <> "."%char) ->
  (PosixPath.extsep ∉ e) -> (PosixPath.sep ∉ e) ->
  clean_filename (base ++ PosixPath.extsep :: e) = base ++ PosixPath.extsep :: e.
Proof.
  intros Hne Hallowed Hspaced Hlast Hdot Hsep.
  pose proof (sanitize_fixed_point base Hne Hallowed Hspaced Hlast) as Hfix.
  assert (cleaned_base base = base) as Hbase.
  { unfold cleaned_base. rewrite Hfix. by destruct base. }
  rewrite <- Hbase at 1. rewrite clean_filename_fixed_with_extension by done.
  by rewrite Hbase.
Qed.

Lemma clean_filename_keeps_clean_name_witness :
  clean_filename (py "Q3 Budget Review Minutes" ++ PosixPath.extsep :: py "txt")
  = py "Q3 Budget Review Minutes" ++ PosixPath.extsep :: py "txt".
Proof.
  apply clean_filename_keeps_clean_name.
  - vm_compute. discriminate.
  - unfold py. cbn [list_ascii_of_string]. repeat (constructor; [reflexivity|]).
    constructor.
  - reflexivity.
  - intros pre c Heq.
    change (py "Q3 Budget Review Minutes") with (py "Q3 Budget Review Minute" ++ ["s"%char]) in Heq.
    apply app_inj_tail in Heq as [_ <-]. vm_compute. discriminate.
  - intros Hin. vm_compute in Hin.
    repeat (apply elem_of_cons in Hin as [Hin | Hin]; [discriminate Hin|]).
    by apply elem_of_nil in Hin.
  - intros Hin. vm_compute in Hin.
    repeat (apply elem_of_cons in Hin as [Hin | Hin]; [discriminate Hin|]).
    by apply elem_of_nil in Hin.
Defined.

(** X19: a failed suggestion is fatal for the run and harmless for the
    file.  When the target passes the guards and either it is classified
    as an image that cannot be decoded, or the gateway gives no usable
    text whatever it is asked, the run prints the processing error,
    returns failure and leaves the directory as it was. *)
Theorem failed_suggestion_is_reported
  (Image_open : str -> option image) (save_base64 : save_call -> str)
  (b64encode : str -> str) (decode_utf8 : str -> option str)
  (gateway : list content_part -> reply) (guess_type : str -> option str)
  dir input file_path data :
  let mime := or_else (guess_type file_path) (py "application/octet-stream") in
  dir !! PosixPath.name file_path = Some (regular_file data) ->
  Z.of_nat (length data) <= MAX_FILE_BYTES ->
  (get_file_category file_path mime = image_cat /\ Image_open data = None)
  \/ (forall payload,
        suggestion_of_reply (gateway payload)
          (PosixPath.suffix (PosixPath.name file_path)) = None) ->
  rename_single_file Image_open save_base64 b64encode decode_utf8 gateway
    guess_type dir input file_path
  = {| returned := false;
       printed := [error_processing (PosixPath.name file_path)];
       entries := dir |}.
Proof.
  intros mime Hfile Hsize Hfail. unfold rename_single_file. rewrite Hfile.
  destruct (Z.ltb_spec MAX_FILE_BYTES (Z.of_nat (length data))); [lia|].
  fold mime.
  assert (suggest_filename Image_open save_base64 b64encode decode_utf8
            gateway data (PosixPath.name file_path) mime
            (get_file_category file_path mime) = None) as ->; [|done].
  unfold suggest_filename, suggest_image_filename, suggest_text_filename,
    text_suggestion, suggest_generic_filename.
  destruct Hfail as [[-> ->] | Hnone]; [done|].
  destruct (get_file_category file_path mime); try apply Hnone.
  destruct (Image_open data) as [img|]; [|done].
  destruct (resize_raises (dimensions img)); [done | apply Hnone].
Qed.

Lemma failed_suggestion_is_reported_witness :
  let dir : gmap str entry :=
    {[ py "scan.png" := regular_file (py "not an image") ]} in
  rename_single_file (fun _ => None) (fun _ => []) id Some
    (answering "Holiday Photo") (fun _ => Some (py "image/png")) dir
    not_a_tty (py "scan.png")
  = {| returned := false; printed := [error_processing (py "scan.png")];
       entries := dir |}.
Proof.
  intros dir.
  apply (failed_suggestion_is_reported (fun _ => None) (fun _ => []) id Some
           (answering "Holiday Photo") (fun _ => Some (py "image/png")) dir
           not_a_tty (py "scan.png") (py "not an image") eq_refl).
  - vm_compute. discriminate.
  - left. split; reflexivity.
Defined.

(** ** Runs with the refusals of the operating system *)

Section OSRuns.

Variable Image_open : str -> option image.
Variable save_base64 : save_call -> str.
Variable b64encode : str -> str.
Variable decode_utf8 : str -> option str.
Variable gateway : list content_part -> reply.
Variable guess_type : str -> option str.
Variable open_error : str -> option str.
Variable rename_error : str -> str -> bool.
Variable stdout_rejects : OS.line -> bool.

Local Abbreviation os_run :=
  (OS.rename_single_file Image_open save_base64 b64encode decode_utf8 gateway
     guess_type open_error rename_error stdout_rejects).
Local Abbreviation os_suggest :=
  (OS.suggest_filename Image_open save_base64 b64encode decode_utf8 gateway
     open_error stdout_rejects).
Local Abbreviation os_mime file_path :=
  (or_else (guess_type file_path) (py "application/octet-stream")).

Lemma print_cases l w :
  OS.print stdout_rejects l w
  = if stdout_rejects l then (OS.exception, w)
    else (OS.value (), OS.write l w).
Proof. reflexivity. Qed.

Lemma print_keeps_folder l w :
  OS.folder (snd (OS.print stdout_rejects l w)) = OS.folder w.
Proof. rewrite print_cases. by destruct (stdout_rejects l). Qed.

Lemma print_then_raise_keeps_folder {A : Type} l w :
  OS.folder (snd ((OS.print stdout_rejects l ;; OS.raise (A:=A)) w))
  = OS.folder w.
Proof.
  unfold mbind, OS.run_bind. rewrite print_cases.
  by destruct (stdout_rejects l).
Qed.

Lemma answer_keeps_folder kind r ext w :
  OS.folder (snd (OS.answer stdout_rejects kind r ext w)) = OS.folder w.
Proof.
  unfold OS.answer. destruct r as [|[content|]]; [done| |].
  - destruct (Py.strip content); [|done].
    apply print_then_raise_keeps_folder.
  - apply print_then_raise_keeps_folder.
Qed.

Lemma image_base64_encode_keeps_folder file_path data w :
  OS.folder (snd (OS.image_base64_encode Image_open save_base64 open_error
                    stdout_rejects file_path data w))
  = OS.folder w.
Proof.
  unfold OS.image_base64_encode. destruct (OS.open_file _ _ _); [|done].
  destruct (Image_open data0) as [img|]; [|done].
  destruct (dimensions img) as [ow oh].
  unfold mbind, OS.run_bind.
  destruct (_ || _).
  - destruct (resize_raises _); [done|]. rewrite print_cases.
    by destruct (stdout_rejects _).
  - done.
Qed.

Lemma suggest_keeps_folder file_path data current_filename mime cat w :
  OS.folder (snd (os_suggest file_path data current_filename mime cat w))
  = OS.folder w.
Proof.
  assert (OS.folder
            (snd (OS.suggest_generic_filename b64encode gateway open_error
                    stdout_rejects file_path data current_filename mime cat w))
          = OS.folder w) as Hgeneric.
  { unfold OS.suggest_generic_filename. destruct (OS.open_file _ _ _); [|done].
    apply answer_keeps_folder. }
  unfold OS.suggest_filename. destruct cat; try exact Hgeneric.
  - unfold OS.suggest_image_filename, mbind, OS.run_bind.
    pose proof (image_base64_encode_keeps_folder file_path data w) as Hk.
    destruct (OS.image_base64_encode _ _ _ _ _ _ w) as [[b64|] w1];
      cbn [snd] in *; [|done].
    rewrite <- Hk. apply answer_keeps_folder.
  - unfold OS.suggest_text_filename. apply answer_keeps_folder.
Qed.

(** The run of an invocation that passes the two guards, obtains a
    suggestion and computes a destination that [os.path.exists] does not
    see. *)
Lemma os_run_to_free_destination kb file_path w data new target w1 :
  let file_name := PosixPath.name file_path in
  OS.folder w !! file_name = Some (OS.present (regular_file data)) ->
  (MAX_FILE_BYTES <? Z.of_nat (length data)) = false ->
  os_suggest file_path data file_name (os_mime file_path)
    (get_file_category file_path (os_mime file_path)) w
  = (OS.value new, w1) ->
  destination file_name new = Some target ->
  (OS.folder w !! target = None
   \/ OS.folder w !! target = Some OS.dangling_link) ->
  let failed (w2 : OS.world) :=
    (OS.value false, OS.write (OS.said (error_processing file_name)) w2) in
  let asked := OS.write (OS.said (suggested_filename target)) w1 in
  let moved (w2 : OS.world) :=
    {| OS.shown := OS.shown w2;
       OS.folder := <[target := OS.present (regular_file data)]>
                      (delete file_name (OS.folder w)) |} in
  let rename (w2 : OS.world) :=
    if rename_error file_path target then failed w2
    else if stdout_rejects (OS.said (successfully_renamed target))
         then failed (moved w2)
         else (OS.value true,
               OS.write (OS.said (successfully_renamed target)) (moved w2)) in
  os_run kb file_path w
  = match kb with
    | OS.typed not_a_tty => rename w1
    | OS.typed (answers response) =>
        if stdout_rejects (OS.said (suggested_filename target))
        then failed w1
        else if Py.eqb (Py.strip response) [] then rename asked
             else (OS.value true, asked)
    | OS.typed interrupts =>
        if stdout_rejects (OS.said (suggested_filename target))
        then failed w1
        else (OS.value true, asked)
    | OS.input_fails =>
        if stdout_rejects (OS.said (suggested_filename target))
        then failed w1
        else failed asked
    end.
Proof.
  intros file_name Hfile Hsize Hsug Hdest Hfree failed asked moved rename.
  assert (OS.folder w1 = OS.folder w) as Hk.
  { pose proof (suggest_keeps_folder file_path data file_name
                  (os_mime file_path)
                  (get_file_category file_path (os_mime file_path)) w) as Hk.
    by rewrite Hsug in Hk. }
  assert (match OS.folder w !! target with
          | Some (OS.present _) => true
          | _ => false
          end = false) as Hexists by (by destruct Hfree as [-> | ->]).
  unfold OS.rename_single_file. fold file_name.
  unfold OS.get_user_confirmation, OS.os_rename, OS.is_file, OS.try_except,
    OS.os_path_exists, OS.print_stderr, OS.raise.
  unfold mbind, OS.run_bind, mret, OS.run_ret.
  rewrite Hfile, Hsize, Hsug, Hdest, Hk, Hexists.
  subst rename failed asked moved. cbv zeta.
  destruct kb as [[|response|]|]; rewrite ?print_cases;
    repeat match goal with
           | |- context [stdout_rejects ?l] =>
               destruct (stdout_rejects l) eqn:?
           | |- context [Py.eqb ?a ?b] => destruct (Py.eqb a b) eqn:?
           end;
    cbn [OS.folder OS.write OS.shown fst snd]; rewrite ?Hk, ?Hfile;
    try reflexivity;
    destruct (rename_error file_path target) eqn:?; rewrite ?print_cases;
    repeat match goal with
           | H : stdout_rejects ?l = _ |- context [stdout_rejects ?l] =>
               rewrite H
           end;
    reflexivity.
Qed.

(** The shape of every run: it returns, and either the directory is as
    before, or the file went to a name that [os.path.exists] did not
    see. *)
Lemma os_run_cases kb file_path w :
  let out := os_run kb file_path w in
  let file_name := PosixPath.name file_path in
  (exists b, fst out = OS.value b /\ OS.folder (snd out) = OS.folder w)
  \/ exists data new target,
       OS.folder w !! file_name = Some (OS.present (regular_file data))
       /\ destination file_name new = Some target
       /\ (OS.folder w !! target = None
           \/ OS.folder w !! target = Some OS.dangling_link)
       /\ rename_error file_path target = false
       /\ OS.folder (snd out)
          = <[target := OS.present (regular_file data)]>
              (delete file_name (OS.folder w))
       /\ fst out
          = OS.value
              (negb (stdout_rejects (OS.said (successfully_renamed target)))).
Proof.
  intros out file_name. subst out.
  pose proof (suggest_keeps_folder file_path) as Hkeeps.
  destruct (OS.folder w !! file_name) as [[[data|]|]|] eqn:Hfile;
    [| left; unfold OS.rename_single_file; fold file_name;
       unfold mbind, OS.run_bind, OS.is_file; rewrite Hfile;
       eexists; split; reflexivity ..].
  destruct (MAX_FILE_BYTES <? Z.of_nat (length data)) eqn:Hsize.
  { left. unfold OS.rename_single_file. fold file_name.
    unfold mbind, OS.run_bind, OS.is_file. rewrite Hfile, Hsize.
    eexists; split; reflexivity. }
  specialize (Hkeeps data file_name (os_mime file_path)
                (get_file_category file_path (os_mime file_path)) w).
  destruct (os_suggest file_path data file_name (os_mime file_path)
              (get_file_category file_path (os_mime file_path)) w)
    as [[new|] w1] eqn:Hsug; cbn [snd] in Hkeeps.
  2:{ left. unfold OS.rename_single_file. fold file_name.
      unfold mbind, OS.run_bind, OS.is_file, OS.try_except.
      rewrite Hfile, Hsize, Hsug. eexists; split; [reflexivity | exact Hkeeps]. }
  destruct (destination file_name new) as [target|] eqn:Hdest.
  2:{ left. unfold OS.rename_single_file. fold file_name.
      unfold mbind, OS.run_bind, OS.is_file, OS.try_except.
      rewrite Hfile, Hsize, Hsug, Hdest, print_cases.
      destruct (stdout_rejects _); eexists; split;
        (reflexivity || exact Hkeeps). }
  assert (OS.folder w !! target = None
          \/ OS.folder w !! target = Some OS.dangling_link
          \/ exists e, OS.folder w !! target = Some (OS.present e))
    as [Hfree | [Hfree | [e Htaken]]].
  { destruct (OS.folder w !! target) as [[e|]|]; eauto. }
  3:{ left. unfold OS.rename_single_file. fold file_name.
      unfold mbind, OS.run_bind, OS.is_file, OS.try_except, OS.os_path_exists.
      rewrite Hfile, Hsize, Hsug, Hdest, Hkeeps, Htaken, print_cases.
      destruct (stdout_rejects _); eexists; split;
        (reflexivity || exact Hkeeps). }
  all: first [ rewrite (os_run_to_free_destination kb file_path w data new
                 target w1 Hfile Hsize Hsug Hdest (or_introl Hfree))
             | rewrite (os_run_to_free_destination kb file_path w data new
                 target w1 Hfile Hsize Hsug Hdest (or_intror Hfree)) ].
  all: cbv zeta; fold file_name.
  all: destruct kb as [[|response|]|];
    repeat match goal with
           | |- context [stdout_rejects ?l] =>
               destruct (stdout_rejects l) eqn:?
           | |- context [Py.eqb ?a ?b] => destruct (Py.eqb a b) eqn:?
           | |- context [rename_error ?a ?b] =>
               destruct (rename_error a b) eqn:?
           end.
  all: first
    [ left; eexists; split; [reflexivity | exact Hkeeps]
    | right; exists data, new, target;
      repeat match goal with
             | H : stdout_rejects ?l = _ |- context [stdout_rejects ?l] =>
                 rewrite H
             end;
      by eauto 10 ].
Qed.

(** X12: a run that returns failure leaves the directory as it was, with
    one exception: the run in which [os.rename] was done and standard
    output then rejected the success line of line 340.  That run returns
    failure although the file is under its new name.  When standard output
    accepts the success lines, every failed run leaves the directory as it
    was. *)
Theorem failed_run_changes_nothing_unless_success_line_is_rejected
  kb file_path w :
  let out := os_run kb file_path w in
  let file_name := PosixPath.name file_path in
  fst out = OS.value false ->
  (OS.folder (snd out) = OS.folder w
   \/ exists data target,
        stdout_rejects (OS.said (successfully_renamed target)) = true
        /\ OS.folder w !! file_name = Some (OS.present (regular_file data))
        /\ OS.folder (snd out) !! file_name = None
        /\ OS.folder (snd out) !! target
           = Some (OS.present (regular_file data)))
  /\ ((forall name,
         stdout_rejects (OS.said (successfully_renamed name)) = false) ->
      OS.folder (snd out) = OS.folder w).
Proof.
  intros out file_name Hfail. subst out file_name.
  destruct (os_run_cases kb file_path w)
    as [(b & _ & Hsame)
       | (data & new & target & Hfile & Hdest & Hfree & _ & Hmoved & Hret)].
  - split; [by left | done].
  - rewrite Hret in Hfail.
    assert (stdout_rejects (OS.said (successfully_renamed target)) = true)
      as Hrejects.
    { destruct (stdout_rejects _); [done | discriminate Hfail]. }
    assert (target <> PosixPath.name file_path) as Hne.
    { intros ->. rewrite Hfile in Hfree. by destruct Hfree. }
    split.
    + right. exists data, target. rewrite Hmoved.
      split; [done|]. split; [done|]. split; [|apply lookup_insert_eq].
      rewrite lookup_insert_ne by done. apply lookup_delete_eq.
    + intros Haccepts. by rewrite Haccepts in Hrejects.
Qed.

(** X13: no run removes or overwrites an entry that [os.path.exists]
    sees: every such entry other than the target is there afterwards,
    unchanged.  A link that cannot be followed is not protected: it stays,
    or the renamed file takes its place. *)
Theorem other_entries_are_untouched_unless_dangling kb file_path w k :
  let out := os_run kb file_path w in
  let file_name := PosixPath.name file_path in
  k <> file_name ->
  (forall e, OS.folder w !! k = Some (OS.present e) ->
             OS.folder (snd out) !! k = Some (OS.present e))
  /\ (OS.folder w !! k = None ->
      OS.folder (snd out) !! k = None
      \/ exists data,
           OS.folder w !! file_name = Some (OS.present (regular_file data))
           /\ OS.folder (snd out) !! k
              = Some (OS.present (regular_file data)))
  /\ (OS.folder w !! k = Some OS.dangling_link ->
      OS.folder (snd out) !! k = Some OS.dangling_link
      \/ exists data,
           OS.folder w !! file_name = Some (OS.present (regular_file data))
           /\ OS.folder (snd out) !! file_name = None
           /\ OS.folder (snd out) !! k
              = Some (OS.present (regular_file data))).
Proof.
  intros out file_name Hk. subst out file_name.
  destruct (os_run_cases kb file_path w)
    as [(b & _ & Hsame)
       | (data & new & target & Hfile & Hdest & Hfree & _ & Hmoved & _)].
  - rewrite Hsame. split; [done|]. split; by left.
  - rewrite Hmoved.
    assert (target <> PosixPath.name file_path) as Hne.
    { intros ->. rewrite Hfile in Hfree. by destruct Hfree. }
    destruct (decide (k = target)) as [-> | Hkt].
    + split; [|split].
      * intros e He. rewrite He in Hfree. by destruct Hfree.
      * intros _. right. exists data. split; [done|]. apply lookup_insert_eq.
      * intros _. right. exists data. split; [done|].
        split; [|apply lookup_insert_eq].
        rewrite lookup_insert_ne by done. apply lookup_delete_eq.
    + rewrite lookup_insert_ne by done. rewrite lookup_delete_ne by done.
      split; [done|]. split; by left.
Qed.

(** X14: the file is never lost or altered.  After a run on a regular
    file either the directory is unchanged, or the file's bytes are under
    a new name that has no separator, differs from the old one and was
    free or held a link that cannot be followed, and the old name is gone.
    The directory has as many entries as before, except that a link
    replaced by the file is lost. *)
Theorem file_content_is_preserved_by_every_run kb file_path w data :
  let out := os_run kb file_path w in
  let file_name := PosixPath.name file_path in
  OS.folder w !! file_name = Some (OS.present (regular_file data)) ->
  OS.folder (snd out) = OS.folder w
  \/ exists target,
       target <> file_name
       /\ (PosixPath.sep ∉ target)
       /\ OS.folder (snd out) !! file_name = None
       /\ OS.folder (snd out) !! target
          = Some (OS.present (regular_file data))
       /\ ((OS.folder w !! target = None
            /\ size (OS.folder (snd out)) = size (OS.folder w))
           \/ (OS.folder w !! target = Some OS.dangling_link
               /\ S (size (OS.folder (snd out))) = size (OS.folder w))).
Proof.
  intros out file_name Hfile. subst out file_name.
  destruct (os_run_cases kb file_path w)
    as [(b & _ & Hsame)
       | (data' & new & target & Hfile' & Hdest & Hfree & _ & Hmoved & _)];
    [by left|].
  rewrite Hfile in Hfile'. injection Hfile' as <-.
  assert (target <> PosixPath.name file_path) as Hne.
  { intros ->. rewrite Hfile in Hfree. by destruct Hfree. }
  assert (size (OS.folder w) <> 0%nat) as Hsize.
  { intros Hz. apply map_size_empty_iff in Hz. rewrite Hz in Hfile.
    by rewrite lookup_empty in Hfile. }
  right. exists target. rewrite Hmoved.
  apply destination_cleaned in Hdest as [Htarget _].
  split; [done|]. split; [rewrite Htarget; apply clean_filename_no_sep|].
  split; [rewrite lookup_insert_ne by done; apply lookup_delete_eq|].
  split; [apply lookup_insert_eq|].
  destruct Hfree as [Hfree | Hfree]; [left | right]; (split; [done|]).
  - rewrite map_size_insert_None by (by rewrite lookup_delete_ne).
    rewrite map_size_delete_Some by done. lia.
  - rewrite map_size_insert_Some by (by rewrite lookup_delete_ne).
    rewrite map_size_delete_Some by done. lia.
Qed.

(** X15: the run to a destination that [os.path.exists] does not see.
    When no answer can be read, when standard output rejects the line
    that shows the suggestion, or when [os.rename] is refused, the run
    returns failure and the directory is unchanged.  When the user
    declines, it returns success and the directory is unchanged.  When
    the confirmation is given and [os.rename] is accepted, the file is
    under the cleaned name, and the run returns success exactly when
    standard output accepts the success line. *)
Theorem free_destination_renames_iff_confirmed_and_accepted
  kb file_path w data new target w1 :
  let out := os_run kb file_path w in
  let file_name := PosixPath.name file_path in
  let shows_suggestion :=
    negb (stdout_rejects (OS.said (suggested_filename target))) in
  let renamed :=
    <[target := OS.present (regular_file data)]>
      (delete file_name (OS.folder w)) in
  OS.folder w !! file_name = Some (OS.present (regular_file data)) ->
  Z.of_nat (length data) <= MAX_FILE_BYTES ->
  os_suggest file_path data file_name (os_mime file_path)
    (get_file_category file_path (os_mime file_path)) w
  = (OS.value new, w1) ->
  destination file_name new = Some target ->
  (OS.folder w !! target = None
   \/ OS.folder w !! target = Some OS.dangling_link) ->
  (kb = OS.input_fails ->
   fst out = OS.value false /\ OS.folder (snd out) = OS.folder w)
  /\ (forall input, kb = OS.typed input ->
      (input <> not_a_tty -> shows_suggestion = false ->
       fst out = OS.value false /\ OS.folder (snd out) = OS.folder w)
      /\ (input = not_a_tty \/ shows_suggestion = true ->
          (fst (get_user_confirmation input target) = false ->
           fst out = OS.value true /\ OS.folder (snd out) = OS.folder w)
          /\ (fst (get_user_confirmation input target) = true ->
              (rename_error file_path target = true ->
               fst out = OS.value false
               /\ OS.folder (snd out) = OS.folder w)
              /\ (rename_error file_path target = false ->
                  OS.folder (snd out) = renamed
                  /\ fst out
                     = OS.value
                         (negb (stdout_rejects
                                  (OS.said (successfully_renamed target)))))))).
Proof.
  intros out file_name shows_suggestion renamed Hfile Hsize Hsug Hdest Hfree.
  assert ((MAX_FILE_BYTES <? Z.of_nat (length data)) = false) as Hsize'
    by (apply Z.ltb_ge; lia).
  assert (OS.folder w1 = OS.folder w) as Hk.
  { pose proof (suggest_keeps_folder file_path data file_name
                  (os_mime file_path)
                  (get_file_category file_path (os_mime file_path)) w) as Hk.
    subst file_name. by rewrite Hsug in Hk. }
  subst out shows_suggestion renamed file_name.
  rewrite (os_run_to_free_destination kb file_path w data new target w1
             Hfile Hsize' Hsug Hdest Hfree).
  cbv zeta.
  split.
  - intros ->. by destruct (stdout_rejects _).
  - intros input ->. unfold get_user_confirmation.
    destruct input as [|response|]; cbn [fst].
    + split; [done|]. intros _. split; [done|]. intros _.
      split; intros ->; [done|].
      by destruct (stdout_rejects (OS.said (successfully_renamed target))).
    + destruct (stdout_rejects (OS.said (suggested_filename target)));
        cbn [negb].
      * split; [done|]. by intros [? | ?].
      * split; [done|]. intros _.
        destruct (Py.eqb (Py.strip response) []).
        -- split; [done|]. intros _. split; intros ->; [done|].
           by destruct
                (stdout_rejects (OS.said (successfully_renamed target))).
        -- split; [done|]. done.
    + destruct (stdout_rejects (OS.said (suggested_filename target)));
        cbn [negb].
      * split; [done|]. by intros [? | ?].
      * split; [done|]. intros _. split; [done|]. done.
Qed.

Section Accepting.

(** The file opens, [os.rename] is accepted and standard output accepts
    every line. *)
Variable file_path : str.
Hypothesis opens : open_error file_path = None.
Hypothesis renames : forall name, rename_error file_path name = false.
Hypothesis accepts : forall l, stdout_rejects l = false.

Lemma messages_write l w :
  OS.messages (OS.shown (OS.write l w))
  = OS.messages (OS.shown w)
    ++ match l with OS.said m => [m] | _ => [] end.
Proof.
  unfold OS.messages, OS.write. cbn [OS.shown]. rewrite omap_app.
  by destruct l.
Qed.

Lemma answer_refines kind r ext w :
  let out := OS.answer stdout_rejects kind r ext w in
  fst out
  = match suggestion_of_reply r ext with
    | Some name => OS.value name
    | None => OS.exception
    end
  /\ OS.folder (snd out) = OS.folder w
  /\ OS.messages (OS.shown (snd out)) = OS.messages (OS.shown w).
Proof.
  intros out. subst out. unfold OS.answer, suggestion_of_reply.
  assert (forall w',
            let out := (OS.print stdout_rejects (OS.empty_model_output kind)
                        ;; OS.raise (A:=str)) w' in
            fst out = OS.exception
            /\ OS.folder (snd out) = OS.folder w'
            /\ OS.messages (OS.shown (snd out)) = OS.messages (OS.shown w'))
    as Hdebug.
  { intros w' out. subst out. unfold mbind, OS.run_bind, OS.raise.
    rewrite print_cases, accepts. cbn [fst snd].
    rewrite messages_write. by rewrite app_nil_r. }
  destruct r as [|[content|]]; [done| |apply Hdebug].
  destruct (Py.strip content); [apply Hdebug | done].
Qed.

Lemma os_suggest_refines data current_filename mime cat w :
  let out := os_suggest file_path data current_filename mime cat w in
  fst out
  = match suggest_filename Image_open save_base64 b64encode decode_utf8
            gateway data current_filename mime cat with
    | Some name => OS.value name
    | None => OS.exception
    end
  /\ OS.folder (snd out) = OS.folder w
  /\ OS.messages (OS.shown (snd out)) = OS.messages (OS.shown w).
Proof.
  intros out. subst out.
  assert (let out :=
            OS.suggest_generic_filename b64encode gateway open_error
              stdout_rejects file_path data current_filename mime cat w in
          fst out
          = match suggest_generic_filename b64encode gateway data
                    current_filename mime cat with
            | Some name => OS.value name
            | None => OS.exception
            end
          /\ OS.folder (snd out) = OS.folder w
          /\ OS.messages (OS.shown (snd out)) = OS.messages (OS.shown w))
    as Hgeneric.
  { unfold OS.suggest_generic_filename, suggest_generic_filename,
      OS.open_file. rewrite opens. apply answer_refines. }
  unfold OS.suggest_filename, suggest_filename.
  destruct cat; try exact Hgeneric.
  - unfold OS.suggest_image_filename, suggest_image_filename,
      OS.image_base64_encode, OS.open_file, resize_raises.
    rewrite opens. destruct (Image_open data) as [img|]; [|done].
    destruct (dimensions img) as [ow oh] eqn:Hdim.
    unfold mbind, OS.run_bind, mret, OS.run_ret.
    destruct ((max_dimension <? ow) || (max_dimension <? oh)); cbn [andb].
    + destruct ((fst (resized_size (ow, oh)) <? 1)
                || (snd (resized_size (ow, oh)) <? 1)); [done|].
      rewrite print_cases, accepts.
      destruct (answer_refines (py "image")
                  (gateway (image_payload
                              (py "data:image/jpeg;base64,"
                               ++ save_base64 (save_plan img))
                              (PosixPath.suffix current_filename)))
                  (PosixPath.suffix current_filename)
                  (OS.write (OS.image_resized (ow, oh) (resized_size (ow, oh)))
                     w)) as (Hfst & Hfolder & Hmsg).
      split; [exact Hfst|]. split; [exact Hfolder|].
      rewrite Hmsg, messages_write. by rewrite app_nil_r.
    + apply answer_refines.
  - unfold OS.suggest_text_filename, suggest_text_filename, text_suggestion,
      OS.open_file. rewrite opens. apply answer_refines.
Qed.

(** X20: the run in which nothing is refused.  When the file opens,
    [os.rename] is accepted, standard output accepts every line, standard
    input is not at its end and the directory has no link that cannot be
    followed, the run with the refusals of the operating system is the
    plain run: same returned value, same directory, same messages. *)
Theorem run_without_refusals_is_the_plain_run
  (dir : gmap str entry) (input : stdin) :
  let out :=
    os_run (OS.typed input) file_path
      {| OS.shown := []; OS.folder := OS.present <$> dir |} in
  let plain :=
    rename_single_file Image_open save_base64 b64encode decode_utf8 gateway
      guess_type dir input file_path in
  fst out = OS.value (returned plain)
  /\ OS.folder (snd out) = OS.present <$> entries plain
  /\ OS.messages (OS.shown (snd out)) = printed plain.
Proof.
  intros out plain. subst out plain.
  set (w := {| OS.shown := []; OS.folder := OS.present <$> dir |}).
  unfold OS.rename_single_file, rename_single_file.
  unfold OS.get_user_confirmation, get_user_confirmation, OS.os_rename,
    OS.is_file, OS.try_except, OS.os_path_exists, OS.print_stderr, OS.raise.
  unfold mbind, OS.run_bind, mret, OS.run_ret.
  assert (OS.folder w = OS.present <$> dir) as Hw by done.
  rewrite Hw, lookup_fmap.
  destruct (dir !! PosixPath.name file_path) as [[data|]|] eqn:Hfile;
    cbn [fmap option_fmap option_map]; [|done..].
  destruct (MAX_FILE_BYTES <? Z.of_nat (length data)); [done|].
  destruct (os_suggest_refines data (PosixPath.name file_path)
              (os_mime file_path)
              (get_file_category file_path (os_mime file_path)) w)
    as (Hfst & Hfolder & Hmsg).
  destruct (os_suggest file_path data (PosixPath.name file_path)
              (os_mime file_path)
              (get_file_category file_path (os_mime file_path)) w)
    as [r w1]; cbn [fst snd] in Hfst, Hfolder, Hmsg.
  rewrite Hw in Hfolder. change (OS.messages (OS.shown w)) with
    (@nil message) in Hmsg.
  assert (forall l w', OS.folder (OS.write l w') = OS.folder w') as Hwrite
    by done.
  destruct (suggest_filename Image_open save_base64 b64encode decode_utf8
              gateway data (PosixPath.name file_path) (os_mime file_path)
              (get_file_category file_path (os_mime file_path)))
    as [new|]; subst r; cbn [fst snd returned entries printed];
    [|by rewrite messages_write, Hwrite, Hmsg].
  destruct (destination (PosixPath.name file_path) new) as [target|].
  2:{ rewrite print_cases, accepts. cbn [fst snd returned entries printed].
      by rewrite messages_write, Hwrite, Hmsg. }
  rewrite Hfolder, lookup_fmap.
  destruct (dir !! target) as [e|] eqn:Htarget;
    cbn [fmap option_fmap option_map].
  { rewrite bool_decide_eq_true_2 by done.
    rewrite print_cases, accepts. cbn [fst snd returned entries printed].
    by rewrite messages_write, Hwrite, Hmsg. }
  rewrite bool_decide_eq_false_2 by (by intros [? ?]).
  assert (<[target := OS.present (regular_file data)]>
            (delete (PosixPath.name file_path) (OS.present <$> dir))
          = OS.present <$> <[target := regular_file data]>
                             (delete (PosixPath.name file_path) dir))
    as Hmoved by (by rewrite fmap_insert, fmap_delete).
  destruct input as [|response|]; rewrite ?print_cases, ?accepts;
    try destruct (Py.eqb (Py.strip response) []);
    cbn [fst snd returned entries printed];
    rewrite ?Hwrite, ?Hfolder, ?lookup_fmap, ?Hfile;
    cbn [fmap option_fmap option_map];
    rewrite ?renames, ?print_cases, ?accepts;
    cbn [fst snd returned entries printed OS.shown OS.folder];
    rewrite ?messages_write, ?Hwrite; cbn [OS.shown OS.folder];
    rewrite ?messages_write, ?Hmoved, ?Hmsg; done.
Qed.

End Accepting.

End OSRuns.

Lemma failed_run_changes_nothing_unless_success_line_is_rejected_witness :
  let out := example_run ascii_stdout (OS.typed not_a_tty) notes_only in
  OS.folder (snd out) = OS.folder notes_only
  \/ exists data target,
       ascii_stdout (OS.said (successfully_renamed target)) = true
       /\ OS.folder notes_only !! PosixPath.name (py "notes.txt")
          = Some (OS.present (regular_file data))
       /\ OS.folder (snd out) !! PosixPath.name (py "notes.txt") = None
       /\ OS.folder (snd out) !! target
          = Some (OS.present (regular_file data)).
Proof.
  exact (proj1 (failed_run_changes_nothing_unless_success_line_is_rejected
                  (fun _ => None) (fun _ => []) id Some
                  (answering "Q3 Budget Review Minutes") plain_text_type
                  (fun _ => None) (fun _ _ => false) ascii_stdout
                  (OS.typed not_a_tty) (py "notes.txt") notes_only eq_refl)).
Defined.

(** The run that standard output fails after the rename: the file is
    under its new name, and the run returns failure with the message of
    line 348. *)
Example renamed_and_reported_as_failed :
  example_run ascii_stdout (OS.typed not_a_tty) notes_only
  = (OS.value false,
     {| OS.shown := [OS.said (error_processing (py "notes.txt"))];
        OS.folder :=
          {[ py "Q3 Budget Review Minutes.txt"
             := OS.present (regular_file (py "Meeting minutes")) ]} |}).
Proof. vm_compute. reflexivity. Qed.

Lemma other_entries_are_untouched_unless_dangling_witness :
  OS.folder
    (snd (example_run utf8_stdout (OS.typed not_a_tty) notes_and_link))
    !! py "todo.md"
  = Some (OS.present (regular_file (py "later"))).
Proof.
  apply (proj1 (other_entries_are_untouched_unless_dangling
                  (fun _ => None) (fun _ => []) id Some
                  (answering "Q3 Budget Review Minutes") plain_text_type
                  (fun _ => None) (fun _ _ => false) utf8_stdout
                  (OS.typed not_a_tty) (py "notes.txt") notes_and_link
                  (py "todo.md") ltac:(vm_compute; discriminate))).
  reflexivity.
Defined.

(** A link that cannot be followed is replaced by the renamed file: of
    three entries two are left. *)
Example dangling_link_is_replaced :
  let out := example_run utf8_stdout (OS.typed not_a_tty) notes_and_link in
  fst out = OS.value true
  /\ OS.folder (snd out)
     = {[ py "Q3 Budget Review Minutes.txt"
          := OS.present (regular_file (py "Meeting minutes"));
          py "todo.md" := OS.present (regular_file (py "later")) ]}
  /\ size (OS.folder notes_and_link) = 3%nat
  /\ size (OS.folder (snd out)) = 2%nat.
Proof. vm_compute. repeat split; reflexivity. Qed.

Lemma file_content_is_preserved_by_every_run_witness :
  let out := example_run utf8_stdout (OS.typed not_a_tty) notes_and_link in
  OS.folder (snd out) = OS.folder notes_and_link
  \/ exists target,
       target <> PosixPath.name (py "notes.txt")
       /\ (PosixPath.sep ∉ target)
       /\ OS.folder (snd out) !! PosixPath.name (py "notes.txt") = None
       /\ OS.folder (snd out) !! target
          = Some (OS.present (regular_file (py "Meeting minutes")))
       /\ ((OS.folder notes_and_link !! target = None
            /\ size (OS.folder (snd out)) = size (OS.folder notes_and_link))
           \/ (OS.folder notes_and_link !! target = Some OS.dangling_link
               /\ S (size (OS.folder (snd out)))
                  = size (OS.folder notes_and_link))).
Proof.
  exact (file_content_is_preserved_by_every_run
           (fun _ => None) (fun _ => []) id Some
           (answering "Q3 Budget Review Minutes") plain_text_type
           (fun _ => None) (fun _ _ => false) utf8_stdout
           (OS.typed not_a_tty) (py "notes.txt") notes_and_link
           (py "Meeting minutes") eq_refl).
Defined.

Lemma free_destination_renames_iff_confirmed_and_accepted_witness :
  let out := example_run utf8_stdout (OS.typed (answers (py " "))) notes_only in
  OS.folder (snd out)
  = <[py "Q3 Budget Review Minutes.txt"
      := OS.present (regular_file (py "Meeting minutes"))]>
      (delete (py "notes.txt") (OS.folder notes_only))
  /\ fst out = OS.value true.
Proof.
  intros out.
  destruct (free_destination_renames_iff_confirmed_and_accepted
              (fun _ => None) (fun _ => []) id Some
              (answering "Q3 Budget Review Minutes") plain_text_type
              (fun _ => None) (fun _ _ => false) utf8_stdout
              (OS.typed (answers (py " "))) (py "notes.txt") notes_only
              (py "Meeting minutes") (py "Q3 Budget Review Minutes.txt")
              (py "Q3 Budget Review Minutes.txt") notes_only
              eq_refl ltac:(vm_compute; discriminate) eq_refl eq_refl
              (or_introl eq_refl)) as [_ Htyped].
  destruct (Htyped (answers (py " ")) eq_refl) as [_ Hshown].
  destruct (Hshown (or_intror eq_refl)) as [_ Haccepted].
  destruct (Haccepted eq_refl) as [_ Hrenamed].
  exact (Hrenamed eq_refl).
Defined.

(** At the end of standard input, and when [os.rename] is refused, the
    run returns failure and the directory is unchanged. *)
Example end_of_input_fails :
  example_run utf8_stdout OS.input_fails notes_only
  = (OS.value false,
     {| OS.shown :=
          [OS.said (suggested_filename (py "Q3 Budget Review Minutes.txt"));
           OS.said (error_processing (py "notes.txt"))];
        OS.folder := OS.folder notes_only |}).
Proof. vm_compute. reflexivity. Qed.

Example refused_rename_fails :
  OS.rename_single_file (fun _ => None) (fun _ => []) id Some
    (answering "Q3 Budget Review Minutes") plain_text_type (fun _ => None)
    (fun _ _ => true) utf8_stdout (OS.typed not_a_tty) (py "notes.txt")
    notes_only
  = (OS.value false,
     {| OS.shown := [OS.said (error_processing (py "notes.txt"))];
        OS.folder := OS.folder notes_only |}).
Proof. vm_compute. reflexivity. Qed.

(** A text file that does not open is still renamed: the gateway is
    asked about the placeholder of line 93. *)
Example unreadable_text_file_is_renamed :
  OS.rename_single_file (fun _ => None) (fun _ => []) id Some
    (answering "Q3 Budget Review Minutes") plain_text_type
    (fun _ => Some (py "Permission denied"))
    (fun _ _ => false) utf8_stdout (OS.typed not_a_tty) (py "notes.txt")
    notes_only
  = (OS.value true,
     {| OS.shown :=
          [OS.said (successfully_renamed (py "Q3 Budget Review Minutes.txt"))];
        OS.folder :=
          {[ py "Q3 Budget Review Minutes.txt"
             := OS.present (regular_file (py "Meeting minutes")) ]} |}).
Proof. vm_compute. reflexivity. Qed.

Lemma run_without_refusals_is_the_plain_run_witness :
  let dir : gmap str entry :=
    {[ py "notes.txt" := regular_file (py "Meeting minutes") ]} in
  fst (example_run utf8_stdout (OS.typed not_a_tty)
         {| OS.shown := []; OS.folder := OS.present <$> dir |})
  = OS.value
      (returned
         (rename_single_file (fun _ => None) (fun _ => []) id Some
            (answering "Q3 Budget Review Minutes") plain_text_type dir
            not_a_tty (py "notes.txt"))).
Proof.
  intros dir.
  exact (proj1 (run_without_refusals_is_the_plain_run
                  (fun _ => None) (fun _ => []) id Some
                  (answering "Q3 Budget Review Minutes") plain_text_type
                  (fun _ => None) (fun _ _ => false) utf8_stdout
                  (py "notes.txt") eq_refl (fun _ => eq_refl)
                  (fun _ => eq_refl) dir not_a_tty)).
Defined.

(** ** Images that cannot be resized *)

Lemma resize_raises_iff (w h : Z) :
  0 < w -> 0 < h ->
  resize_raises (w, h) = true <-> max_dimension * Z.min w h < Z.max w h.
Proof.
  intros Hw Hh. unfold resize_raises.
  destruct (resized_size_cases w h)
    as [(Hw' & Hh' & ->) | [(Hw' & Hhw & ->) | (Hh' & Hwh & ->)]];
    cbn [fst snd].
  - destruct (Z.ltb_spec max_dimension w), (Z.ltb_spec max_dimension h);
      try lia.
    cbn. unfold max_dimension in *. split; [done | lia].
  - destruct (Z.ltb_spec max_dimension w); [|lia]. cbn [orb andb].
    pose proof (quot_scaled_positive h w ltac:(lia) ltac:(lia)) as Hq.
    unfold max_dimension in *.
    destruct (Z.ltb_spec 1024 1); [lia|]. cbn [orb].
    destruct (Z.ltb_spec (Z.quot (h * 1024) w) 1); split; try done; lia.
  - assert ((max_dimension <? w) || (max_dimension <? h) = true) as ->.
    { apply orb_true_iff. right. apply Z.ltb_lt. lia. }
    cbn [andb].
    pose proof (quot_scaled_positive w h ltac:(lia) ltac:(lia)) as Hq.
    unfold max_dimension in *.
    destruct (Z.ltb_spec 1024 1); [lia|]. rewrite orb_false_r.
    destruct (Z.ltb_spec (Z.quot (w * 1024) h) 1); split; try done; lia.
Qed.

(** X21: an image whose longer side is more than 1024 times its shorter
    side gets no suggestion.  The side computed for the preview is 0,
    [image.resize] raises, and the gateway is not asked: whatever it would
    answer, [suggest_filename] fails, and so does the run.  For every
    other image with positive sides the resize does not raise. *)
Theorem elongated_image_gets_no_suggestion
  (Image_open : str -> option image) (save_base64 : save_call -> str)
  (b64encode : str -> str) (decode_utf8 : str -> option str)
  (gateway : list content_part -> reply)
  (data current_filename mime : str) (img : image) (w h : Z) :
  Image_open data = Some img ->
  dimensions img = (w, h) ->
  0 < w -> 0 < h ->
  (resize_raises (w, h) = true <-> max_dimension * Z.min w h < Z.max w h)
  /\ (max_dimension * Z.min w h < Z.max w h ->
      fst (resized_size (w, h)) = 0 \/ snd (resized_size (w, h)) = 0)
  /\ (max_dimension * Z.min w h < Z.max w h ->
      suggest_filename Image_open save_base64 b64encode decode_utf8 gateway
        data current_filename mime image_cat
      = None).
Proof.
  intros Hopen Hdim Hw Hh.
  pose proof (resize_raises_iff w h Hw Hh) as Hiff.
  split; [exact Hiff|]. split.
  - intros Hlong. apply Hiff in Hlong. unfold resize_raises in Hlong.
    apply andb_true_iff in Hlong as [_ Hzero].
    destruct (resized_size_cases w h)
      as [(Hw' & Hh' & Heq) | [(Hw' & Hhw & Heq) | (Hh' & Hwh & Heq)]];
      rewrite Heq in *; cbn [fst snd] in *.
    + apply orb_true_iff in Hzero as [Hz | Hz]; apply Z.ltb_lt in Hz; lia.
    + right. pose proof (quot_scaled_nonneg h w ltac:(lia) ltac:(lia)).
      apply orb_true_iff in Hzero as [Hz | Hz]; apply Z.ltb_lt in Hz;
        unfold max_dimension in *; lia.
    + left. pose proof (quot_scaled_nonneg w h ltac:(lia) ltac:(lia)).
      apply orb_true_iff in Hzero as [Hz | Hz]; apply Z.ltb_lt in Hz;
        unfold max_dimension in *; lia.
  - intros Hlong. apply Hiff in Hlong.
    unfold suggest_filename, suggest_image_filename.
    by rewrite Hopen, Hdim, Hlong.
Qed.

Lemma elongated_image_gets_no_suggestion_witness :
  suggest_filename
    (fun _ => Some {| mode := py "RGB"; dimensions := (5000, 4) |})
    (fun _ => []) id Some (answering "Panorama") (py "bytes")
    (py "strip.png") (py "image/png") image_cat
  = None.
Proof.
  apply (proj2 (proj2 (elongated_image_gets_no_suggestion
           (fun _ => Some {| mode := py "RGB"; dimensions := (5000, 4) |})
           (fun _ => []) id Some (answering "Panorama") (py "bytes")
           (py "strip.png") (py "image/png")
           {| mode := py "RGB"; dimensions := (5000, 4) |} 5000 4
           eq_refl eq_refl ltac:(lia) ltac:(lia)))).
  vm_compute. reflexivity.
Defined.
